(** * whisper-gui: a shallow embedding of [main.py]

    The program is a small wxPython front end: a word-wrapping helper, a
    filename check, a sizer that shows one panel at a time, and two panels
    that launch a transcription thread and store the API key.

    Python values are modelled as follows.
    - [str] is a sequence of Unicode code points: [list N]; [len] is the
      number of code points.
    - Objects with identity (windows, panels) are object ids ([positive]);
      [==] on them is identity.
    - [os.environ] and the file system are finite maps ([gmap]).
    - Raising is a result in a sum type, [inl] carrying the exception.
    - Every toolkit call, upload and completed file write is recorded in a
      log together with the thread that executed it. *)

From Stdlib Require Import ZArith NArith Ascii Lia.
From stdpp Require Import base option list strings gmap.

(** ** Python strings *)

Abbreviation str := (list N).

(** A literal of the source, as code points. *)
Definition lit (s : string) : str :=
  map N_of_ascii (String.list_ascii_of_string s).

Arguments lit s%_string : simpl never.

(** [len(s)] as a Python integer. *)
Definition len {A} (s : list A) : Z := Z.of_nat (length s).

(** [str.isspace] on one code point, the test [str.split()] uses: the
    ASCII table entries 0x09-0x0D, 0x1C-0x20 and the Unicode white space
    of [_PyUnicode_IsWhitespace]. *)
Definition isspace (c : N) : bool :=
  (((0x09 <=? c) && (c <=? 0x0D)) || ((0x1C <=? c) && (c <=? 0x20))
   || (c =? 0x85) || (c =? 0xA0) || (c =? 0x1680)
   || ((0x2000 <=? c) && (c <=? 0x200A))
   || (c =? 0x2028) || (c =? 0x2029) || (c =? 0x202F) || (c =? 0x205F)
   || (c =? 0x3000))%N.

(** [s.split()] with no argument: maximal runs of non-space code points,
    in order; [word] is the run being scanned. *)
Fixpoint split_from (word : str) (s : str) : list str :=
  match s with
  | [] => match word with [] => [] | _ => [word] end
  | c :: s' =>
      if isspace c
      then match word with
           | [] => split_from [] s'
           | _ => word :: split_from [] s'
           end
      else split_from (word ++ [c]) s'
  end.

Definition split (s : str) : list str := split_from [] s.

(** [sep.join(l)]. *)
Fixpoint join (sep : str) (l : list str) : str :=
  match l with
  | [] => []
  | [x] => x
  | x :: l' => x ++ sep ++ join sep l'
  end.

(** Truth value of a Python [str]: non-empty. *)
Definition truthy (s : str) : bool :=
  match s with [] => false | _ => true end.

(** ** [add_newlines] (main.py 9-24) *)

(** One iteration of the [for word in words] loop on the pair
    [(lines, current_line)]. *)
Definition add_newlines_step (line_length : Z)
    (st : list str * str) (word : str) : list str * str :=
  let '(lines, current_line) := st in
  if (len current_line + len word <=? line_length)%Z
  then (lines,
        current_line ++ (if truthy current_line then lit " " ++ word else word))
  else (lines ++ [current_line], word).

(** The list [lines] as it is when [join] is called. *)
Definition add_newlines_lines (string : str) (line_length : Z) : list str :=
  let words := split string in
  let '(lines, current_line) :=
    foldl (add_newlines_step line_length) ([], []) words in
  if truthy current_line then lines ++ [current_line] else lines.

Definition add_newlines (string : str) (line_length : Z) : str :=
  join [0x0A%N] (add_newlines_lines string line_length).

(** ** Exceptions, threads and the effect monad *)

Inductive exn :=
| IndexError                       (* list index out of range *)
| TypeError                        (* [open(None, ...)] *)
| FileNotFoundError (path : str)   (* [open(path, "rb")] on a missing file *)
| OSError (path : str)             (* the OS refuses the path *)
| AttributeError                   (* [response.data] on an object without it *)
| KeyError                         (* [...['text']] on a mapping without it *)
| UnicodeEncodeError.              (* [file.write(text)]: text that the
                                      encoding of the file cannot hold *)

Definition is_OSError (e : exn) : bool :=
  match e with
  | FileNotFoundError _ | OSError _ => true   (* FileNotFoundError <: OSError *)
  | _ => false
  end.

(** The thread that executes a piece of code. *)
Inductive thread :=
| MainThread                 (* the wx event loop *)
| WorkerThread (n : nat).    (* the n-th [threading.Thread] started *)

Global Instance thread_eq_dec : EqDecision thread.
Proof. solve_decision. Defined.

(** A computation over a state [S], run by some thread; an exception
    keeps the state reached when it was raised. *)
Definition M (S A : Type) : Type := thread → S → (exn + A) * S.

Definition ret {S A} (a : A) : M S A := λ _ s, (inr a, s).

Definition bind {S A B} (m : M S A) (k : A → M S B) : M S B :=
  λ t s, match m t s with
         | (inr a, s') => k a t s'
         | (inl e, s') => (inl e, s')
         end.

Definition raise {S A} (e : exn) : M S A := λ _ s, (inl e, s).
Definition get {S} : M S S := λ _ s, (inr s, s).
Definition gets {S A} (f : S → A) : M S A := λ _ s, (inr (f s), s).
Definition modify {S} (f : S → S) : M S unit := λ _ s, (inr tt, f s).

(** Run [m] as thread [t]. *)
Definition run_as {S A} (t : thread) (m : M S A) : M S A := λ _ s, m t s.

(** Run a computation on the component [prj] of a larger state. *)
Definition zoom {S T A} (prj : S → T) (upd : T → S → S) (m : M T A) : M S A :=
  λ t s, let '(r, w) := m t (prj s) in (r, upd w s).

Declare Scope py_scope.
Delimit Scope py_scope with py.
Notation "x <- m ;; k" := (bind m (λ x, k))
  (at level 100, m at next level, k at level 200, right associativity)
  : py_scope.
Notation "m ;; k" := (bind m (λ _, k))
  (at level 100, k at level 200, right associativity) : py_scope.

(** [for x in l: body x]. *)
Fixpoint for_each {S A} (l : list A) (body : A → M S unit) : M S unit :=
  match l with
  | [] => ret tt
  | x :: l' => (body x ;; for_each l' body)%py
  end.

(** The final state and the result of a run. *)
Definition exec {S A} (m : M S A) (t : thread) (s : S) : S := (m t s).2.
Definition result {S A} (m : M S A) (t : thread) (s : S) : exn + A := (m t s).1.

(** ** The toolkit and the operating system *)

Abbreviation oid := positive.

(** An RGB tuple as passed to [SetForegroundColour]. *)
Definition colour : Type := N * N * N.

(** What [datetime.datetime.now()] returns. *)
Record datetime := {
  year : N; month : N; day : N; hour : N; minute : N; second : N
}.

(** Effects on the toolkit, the file system and the network, as logged. *)
Inductive call :=
| SetSizer (window : oid)
| SizerAdd (window : oid)
| WindowShow (window : oid)
| WindowHide (window : oid)
| Layout (window : oid)
| SetForegroundColour (ctrl : oid) (c : colour)
| SetLabel (ctrl : oid) (label : str)
| FileWrite (path text : str)
| AudioTranscribe (model path : str)
| ThreadStart (n : nat).

(** What [openai.Audio.transcribe] does when it does not raise
    [OpenAIError]: it raises something else, or it returns an object,
    given here by what [response.data['text']] evaluates to on it (a text,
    or the exception that the attribute access or the subscript raises). *)
Inductive api_return :=
| Raises (e : exn)
| Response (data_text : exn + str).

Record World := {
  shown : gmap oid bool;           (* [IsShown()] of every window *)
  environ : gmap str str;          (* [os.environ] *)
  openai_api_key : option str;     (* [openai.api_key] *)
  files : gmap str str;            (* path -> content *)
  getcwd : str;                    (* [os.getcwd()] *)
  now : datetime;                  (* the clock *)
  creatable : str → bool;          (* does [open(path, 'w')] succeed *)
  encodable : str → bool;          (* does [file.write(text)] succeed: can
                                      the file's encoding hold the text *)
  remote : str → str + api_return; (* the API on an audio content:
                                      [inl d] raises [OpenAIError] with
                                      [str(e) = d], [inr r] does [r] *)
  threads : nat;                   (* threads started so far *)
  log : list (thread * call)       (* effects, oldest first *)
}.

Definition set_shown (f : gmap oid bool → gmap oid bool) (w : World) : World :=
  {| shown := f (shown w); environ := environ w;
     openai_api_key := openai_api_key w; files := files w;
     getcwd := getcwd w; now := now w; creatable := creatable w;
     encodable := encodable w; remote := remote w; threads := threads w; log := log w |}.

Definition set_environ (f : gmap str str → gmap str str) (w : World) : World :=
  {| shown := shown w; environ := f (environ w);
     openai_api_key := openai_api_key w; files := files w;
     getcwd := getcwd w; now := now w; creatable := creatable w;
     encodable := encodable w; remote := remote w; threads := threads w; log := log w |}.

Definition set_openai_api_key (k : option str) (w : World) : World :=
  {| shown := shown w; environ := environ w;
     openai_api_key := k; files := files w;
     getcwd := getcwd w; now := now w; creatable := creatable w;
     encodable := encodable w; remote := remote w; threads := threads w; log := log w |}.

Definition set_files (f : gmap str str → gmap str str) (w : World) : World :=
  {| shown := shown w; environ := environ w;
     openai_api_key := openai_api_key w; files := f (files w);
     getcwd := getcwd w; now := now w; creatable := creatable w;
     encodable := encodable w; remote := remote w; threads := threads w; log := log w |}.

Definition set_threads (n : nat) (w : World) : World :=
  {| shown := shown w; environ := environ w;
     openai_api_key := openai_api_key w; files := files w;
     getcwd := getcwd w; now := now w; creatable := creatable w;
     encodable := encodable w; remote := remote w; threads := n; log := log w |}.

Definition set_log (f : list (thread * call) → list (thread * call))
    (w : World) : World :=
  {| shown := shown w; environ := environ w;
     openai_api_key := openai_api_key w; files := files w;
     getcwd := getcwd w; now := now w; creatable := creatable w;
     encodable := encodable w; remote := remote w; threads := threads w; log := f (log w) |}.

(** Record a call, made by the running thread. *)
Definition emit (c : call) : M World unit :=
  λ t w, (inr tt, set_log (λ l, l ++ [(t, c)]) w).

(** [window.Show()] and [window.Hide()]. *)
Definition Window_Show (window : oid) : M World unit :=
  (modify (set_shown <[window := true]>) ;; emit (WindowShow window))%py.

Definition Window_Hide (window : oid) : M World unit :=
  (modify (set_shown <[window := false]>) ;; emit (WindowHide window))%py.

(** ** [PanelsSwitcher] (main.py 36-96) *)

Record PanelsSwitcher := {
  parent : oid;
  panels : list oid
}.

Module PanelsSwitcher.

(** [Show] (main.py 79-96). *)
Definition Show (self : PanelsSwitcher) (panel : oid) : M World unit :=
  (for_each (panels self)
     (λ p, if decide (p = panel) then Window_Show p else Window_Hide p) ;;
   emit (Layout (parent self)))%py.

(** [__init__] (main.py 41-67); [panels[0]] raises on an empty list. *)
Definition __init__ (parent : oid) (panels : list oid) : M World PanelsSwitcher :=
  (emit (SetSizer parent) ;;
   let self := {| parent := parent; panels := panels |} in
   for_each panels (λ panel, emit (SizerAdd panel)) ;;
   first <- match panels with
            | [] => raise IndexError
            | p :: _ => ret p
            end ;;
   Show self first ;;
   ret self)%py.

(** [add_panel] (main.py 69-77): the new [self]. *)
Definition add_panel (self : PanelsSwitcher) (panel : oid)
  : M World PanelsSwitcher :=
  (let self := {| parent := parent self; panels := panels self ++ [panel] |} in
   emit (SizerAdd panel) ;;
   ret self)%py.

End PanelsSwitcher.

(** ** [is_valid_filename] (main.py 26-34) *)

(** [os.path.basename] on a [str]: the part after the last separator.  It
    is string slicing only and raises nothing. *)
Fixpoint os_path_basename_from (tail : str) (p : str) : str :=
  match p with
  | [] => tail
  | c :: p' =>
      if (c =? 0x2F)%N then os_path_basename_from [] p'
      else os_path_basename_from (tail ++ [c]) p'
  end.

Definition os_path_basename (p : str) : exn + str :=
  inr (os_path_basename_from [] p).

Definition is_valid_filename (filename : str) : exn + bool :=
  match os_path_basename filename with
  | inr _ => inr true
  | inl e => if is_OSError e then inr false else inl e
  end.

(** ** [strftime("%Y_%m_%d_%H_%M_%S")] *)

Definition digit (n : N) : N := (0x30 + n mod 10)%N.

Definition pad2 (n : N) : str := [digit (n / 10); digit n].

Definition pad4 (n : N) : str :=
  [digit (n / 1000); digit (n / 100); digit (n / 10); digit n].

Definition strftime (d : datetime) : str :=
  pad4 (year d) ++ lit "_" ++ pad2 (month d) ++ lit "_" ++ pad2 (day d)
  ++ lit "_" ++ pad2 (hour d) ++ lit "_" ++ pad2 (minute d)
  ++ lit "_" ++ pad2 (second d).

Arguments strftime : simpl never.

(** Field ranges of a [datetime] on which [pad4] and [pad2] print the
    fields exactly. *)
Definition datetime_ok (d : datetime) : bool :=
  ((1000 <=? year d) && (year d <=? 9999) && (1 <=? month d) && (month d <=? 12)
   && (1 <=? day d) && (day d <=? 31) && (hour d <=? 23) && (minute d <=? 59)
   && (second d <=? 59))%N.

(** ** The panels and the frame *)

Record StaticText := {
  window_id : oid;
  Label : str;
  ForegroundColour : colour
}.

Record HomePanel := {
  home_id : oid;
  selected_file : option str;      (* [None] until a file is chosen *)
  error_label : StaticText;
  title_entry : str;               (* [title_entry.GetValue()] *)
  file_display : StaticText
}.

Record SettingsPanel := {
  settings_id : oid;
  api_key_entry : str              (* [api_key_entry.GetValue()] *)
}.

(** [TranscriptionApp] with its panels and sizer, and the world around. *)
Record State := {
  frame : oid;
  home_panel : HomePanel;
  settings_panel : SettingsPanel;
  sizer : PanelsSwitcher;
  world : World
}.

Definition set_world (w : World) (s : State) : State :=
  {| frame := frame s; home_panel := home_panel s;
     settings_panel := settings_panel s; sizer := sizer s; world := w |}.

Definition set_home_panel (f : HomePanel → HomePanel) (s : State) : State :=
  {| frame := frame s; home_panel := f (home_panel s);
     settings_panel := settings_panel s; sizer := sizer s; world := world s |}.

Definition set_error_label (f : StaticText → StaticText) (h : HomePanel)
  : HomePanel :=
  {| home_id := home_id h; selected_file := selected_file h;
     error_label := f (error_label h); title_entry := title_entry h;
     file_display := file_display h |}.

Definition set_file_display (f : StaticText → StaticText) (h : HomePanel)
  : HomePanel :=
  {| home_id := home_id h; selected_file := selected_file h;
     error_label := error_label h; title_entry := title_entry h;
     file_display := f (file_display h) |}.

Definition set_selected_file (p : option str) (h : HomePanel) : HomePanel :=
  {| home_id := home_id h; selected_file := p;
     error_label := error_label h; title_entry := title_entry h;
     file_display := file_display h |}.

Definition set_title_entry (v : str) (h : HomePanel) : HomePanel :=
  {| home_id := home_id h; selected_file := selected_file h;
     error_label := error_label h; title_entry := v;
     file_display := file_display h |}.

Definition set_Label (l : str) (t : StaticText) : StaticText :=
  {| window_id := window_id t; Label := l;
     ForegroundColour := ForegroundColour t |}.

Definition set_ForegroundColour (c : colour) (t : StaticText) : StaticText :=
  {| window_id := window_id t; Label := Label t; ForegroundColour := c |}.

(** A computation on the world, inside the application. *)
Definition in_world {A} (m : M World A) : M State A := zoom world set_world m.

(** A pure result that may be an exception. *)
Definition lift_exn {S A} (r : exn + A) : M S A := λ _ s, (r, s).

(** [with open(path, 'w') as file: file.write(text)].  [open] creates the
    file or empties it, or raises; [write] then stores the text, or raises
    on a text the encoding cannot hold and leaves the file empty.  The log
    entry is the completed write. *)
Definition open_write (path text : str) : M World unit :=
  (w <- get ;;
   if creatable w path
   then
     modify (set_files <[path := []]>) ;;
     if encodable w text
     then modify (set_files <[path := text]>) ;; emit (FileWrite path text)
     else raise UnicodeEncodeError
   else raise (OSError path))%py.

(** [open(path, "rb")]: the content to upload. *)
Definition open_read (path : option str) : M World str :=
  match path with
  | None => raise TypeError
  | Some p =>
      (w <- get ;;
       match files w !! p with
       | Some content => ret content
       | None => raise (FileNotFoundError p)
       end)%py
  end.

(** [threading.Thread(target=...).start()]: the new thread's number. *)
Definition Thread_start : M World nat :=
  (w <- get ;;
   modify (set_threads (S (threads w))) ;;
   emit (ThreadStart (threads w)) ;;
   ret (threads w))%py.

(** Truth value of [None] or a [str]. *)
Definition truthy_opt (o : option str) : bool :=
  match o with Some s => truthy s | None => false end.

(** ** [HomePanel] (main.py 99-205) *)

Module HomePanel.

(** Fields as [__init__] leaves them (main.py 100-118). *)
Definition __init__ (self error_label_id file_display_id : oid) : HomePanel :=
  {| home_id := self;
     selected_file := None;
     error_label := {| window_id := error_label_id; Label := lit "";
                       ForegroundColour := (255, 0, 0)%N |};
     title_entry := lit "";
     file_display := {| window_id := file_display_id; Label := lit "";
                        ForegroundColour := (0, 0, 0)%N |} |}.

Definition error_label_SetForegroundColour (c : colour) : M State unit :=
  (h <- gets home_panel ;;
   modify (set_home_panel (set_error_label (set_ForegroundColour c))) ;;
   in_world (emit (SetForegroundColour (window_id (error_label h)) c)))%py.

Definition error_label_SetLabel (l : str) : M State unit :=
  (h <- gets home_panel ;;
   modify (set_home_panel (set_error_label (set_Label l))) ;;
   in_world (emit (SetLabel (window_id (error_label h)) l)))%py.

Definition file_display_SetLabel (l : str) : M State unit :=
  (h <- gets home_panel ;;
   modify (set_home_panel (set_file_display (set_Label l))) ;;
   in_world (emit (SetLabel (window_id (file_display h)) l)))%py.

(** [self.Layout()]. *)
Definition self_Layout : M State unit :=
  (h <- gets home_panel ;; in_world (emit (Layout (home_id h))))%py.

(** main.py 149-152. *)
Definition notify_error (msg : str) : M State unit :=
  (error_label_SetForegroundColour (255, 0, 0)%N ;;
   error_label_SetLabel msg ;;
   self_Layout)%py.

(** main.py 154-156. *)
Definition clear_error : M State unit :=
  (error_label_SetLabel (lit "") ;; self_Layout)%py.

(** main.py 158-165; [dlg] is the outcome of the modal dialog:
    [Some (path, filename)] on [wx.ID_OK], [None] otherwise. *)
Definition select_audio_file (dlg : option (str * str)) : M State unit :=
  (clear_error ;;
   match dlg with
   | Some (path, filename) =>
       modify (set_home_panel (set_selected_file (Some path))) ;;
       file_display_SetLabel filename ;;
       self_Layout
   | None => ret tt
   end)%py.

(** The [if]/[else] that picks [title] in [save_transcript]
    (main.py 168-173). *)
Definition transcript_title : M State str :=
  (h <- gets home_panel ;;
   valid <- lift_exn (is_valid_filename (title_entry h)) ;;
   if valid && negb (bool_decide (title_entry h = lit ""))
   then ret (title_entry h)
   else
     current_datetime <- gets (λ s, now (world s)) ;;
     let formatted_datetime := strftime current_datetime in
     ret (lit "transcript_" ++ formatted_datetime))%py.

(** main.py 167-180. *)
Definition save_transcript (text : str) : M State unit :=
  (title <- transcript_title ;;
   in_world (open_write (title ++ lit ".txt") text) ;;
   error_label_SetForegroundColour (30, 117, 22)%N ;;
   cwd <- gets (λ s, getcwd (world s)) ;;
   error_label_SetLabel
     (lit "Saved transcript to '" ++ cwd ++ lit "\" ++ title ++ lit ".txt'") ;;
   self_Layout)%py.

(** main.py 183-191. *)
Definition send_audio : M State unit :=
  (h <- gets home_panel ;;
   audio_file <- in_world (open_read (selected_file h)) ;;
   in_world (emit (AudioTranscribe (lit "whisper-1")
                     (default [] (selected_file h)))) ;;
   w <- gets world ;;
   match remote w audio_file with
   | inl e =>
       notify_error (lit "OPENAI error: " ++ add_newlines e 50) ;;
       save_transcript (lit "test")
   | inr (Raises e) => raise e
   | inr (Response data_text) =>
       text <- lift_exn data_text ;;
       save_transcript text
   end)%py.

(** main.py 193-201. *)
Definition transcribe : M State unit :=
  (clear_error ;;
   h <- gets home_panel ;;
   if truthy_opt (selected_file h) then
     key <- gets (λ s, environ (world s) !! lit "OPENAI_API_KEY") ;;
     if truthy_opt key
     then in_world Thread_start ;; ret tt
     else notify_error (lit "No API key provided.")
   else notify_error (lit "No audio file selected."))%py.

(** main.py 203-205. *)
Definition show_settings : M State unit :=
  (clear_error ;;
   s <- get ;;
   in_world (PanelsSwitcher.Show (sizer s) (settings_id (settings_panel s))))%py.

(** What the [n]-th started thread executes: its target [send_audio],
    run by that thread.  An exception ends the thread only. *)
Definition thread_run (n : nat) : M State unit :=
  run_as (WorkerThread n) send_audio.

End HomePanel.

Arguments HomePanel.transcript_title : simpl never.

(** ** [SettingsPanel] (main.py 208-239) *)

Module SettingsPanel.

(** main.py 238-239. *)
Definition return_to_home : M State unit :=
  (s <- get ;;
   in_world (PanelsSwitcher.Show (sizer s) (home_id (home_panel s))))%py.

(** main.py 233-236. *)
Definition save_api_key : M State unit :=
  (s <- get ;;
   let value := api_key_entry (settings_panel s) in
   in_world (modify (set_environ <[lit "OPENAI_API_KEY" := value]>)) ;;
   in_world (modify (set_openai_api_key (Some value))) ;;
   return_to_home)%py.

End SettingsPanel.

(** ** Sample states *)

(** A world with the two panels of the application shown, an audio file on
    disk, no API key, a file system that refuses a question mark in a
    name and stores text as UTF-8 (which cannot hold a surrogate), and a
    remote API that fails with the description "rate limited". *)
Definition sample_world : World :=
  {| shown := {[ 2%positive := true; 3%positive := true ]};
     environ := ∅;
     openai_api_key := None;
     files := {[ lit "talk.mp3" := lit "RIFF" ]};
     getcwd := lit "C:\work";
     now := {| year := 2023; month := 5; day := 17;
               hour := 14; minute := 3; second := 9 |};
     creatable := λ path, negb (bool_decide (0x3F%N ∈ path));
     encodable :=
       λ text, forallb (λ c, (c <? 0xD800)%N || (0xDFFF <? c)%N) text;
     remote := λ _, inl (lit "rate limited");
     threads := 0;
     log := [] |}.

(** The sizer of the sample application. *)
Definition sample_sizer : PanelsSwitcher :=
  {| parent := 1; panels := [2%positive; 3%positive] |}.

(** The application after start-up: frame 1, home panel 2, settings
    panel 3, labels 4 and 5. *)
Definition sample_state : State :=
  {| frame := 1;
     home_panel := HomePanel.__init__ 2 4 5;
     settings_panel := {| settings_id := 3; api_key_entry := lit "" |};
     sizer := sample_sizer;
     world := set_shown <[3%positive := false]> sample_world |}.

(** The user has chosen [talk.mp3]. *)
Definition sample_selected : State :=
  set_home_panel (set_selected_file (Some (lit "talk.mp3"))) sample_state.

(** ... and an API key is in the environment. *)
Definition sample_ready : State :=
  set_world
    (set_environ <[lit "OPENAI_API_KEY" := lit "sk-test"]> (world sample_selected))
    sample_selected.

(** Two words of 25 letters, separated by one space. *)
Definition two_words : str :=
  lit "aaaaaaaaaaaaaaaaaaaaaaaaa bbbbbbbbbbbbbbbbbbbbbbbbb".

(** The sample application with a title typed in. *)
Definition sample_titled (title : str) : State :=
  set_home_panel (set_title_entry title) sample_ready.

(** ** Observations on a state *)

(** The feedback label shows [msg] in colour [c]. *)
Definition shows (s : State) (c : colour) (msg : str) : Prop :=
  Label (error_label (home_panel s)) = msg
  ∧ ForegroundColour (error_label (home_panel s)) = c.

Definition red : colour := (255, 0, 0)%N.
Definition green : colour := (30, 117, 22)%N.

(** A call that changes what the user sees or what is on disk. *)
Definition mutates_ui_or_files (c : call) : bool :=
  match c with
  | WindowShow _ | WindowHide _ | Layout _
  | SetForegroundColour _ _ | SetLabel _ _ | FileWrite _ _ => true
  | SetSizer _ | SizerAdd _ | AudioTranscribe _ _ | ThreadStart _ => false
  end.

(** The world [w] with other visibility flags and another log. *)
Definition with_ui (sh : gmap oid bool) (lg : list (thread * call)) (w : World)
  : World :=
  set_log (λ _, lg) (set_shown (λ _, sh) w).

(** ** Predicates used in the statements *)

Definition nospace (w : str) : Prop := Forall (λ c, isspace c = false) w.

(** A word as [split] returns them: non-empty, without white space. *)
Definition is_word (w : str) : Prop := w ≠ [] ∧ nospace w.

(** A line that is empty, or one of the words [ws], or at most
    [line_length + 1] long. *)
Definition line_ok (line_length : Z) (ws : list str) (line : str) : Prop :=
  line = [] ∨ line ∈ ws ∨ (len line ≤ line_length + 1)%Z.

(** [m] only appends to the log [lg], and every entry it appends carries
    the thread that runs [m]. *)
Definition tagged {S A} (lg : S → list (thread * call)) (m : M S A) : Prop :=
  ∀ t s, ∃ new, lg (m t s).2 = lg s ++ new ∧ Forall (λ e, e.1 = t) new.

(** The log of the application. *)
Abbreviation app_log := (λ s : State, log (world s)).

(** Reading a run of ASCII digits as a number. *)
Definition digit_value (c : N) : N := (c - 0x30)%N.

Definition decimal (ds : str) : N :=
  foldl (λ acc c, (10 * acc + digit_value c)%N) 0%N ds.

(** ** [TranscriptionApp] (main.py 241-251) and the event loop *)

Definition set_settings_panel (f : SettingsPanel → SettingsPanel) (s : State)
  : State :=
  {| frame := frame s; home_panel := home_panel s;
     settings_panel := f (settings_panel s); sizer := sizer s;
     world := world s |}.

Definition set_api_key_entry (v : str) (p : SettingsPanel) : SettingsPanel :=
  {| settings_id := settings_id p; api_key_entry := v |}.

Module TranscriptionApp.

(** [__init__] from the point where the two panels exist (main.py
    248-251): the sizer is built on them, set on the frame, and the home
    panel is shown. *)
Definition __init__ (self : oid) (home : HomePanel) (settings : SettingsPanel)
    (t : thread) (w : World) : exn + State :=
  match (sizer <- PanelsSwitcher.__init__ self
                    [home_id home; settings_id settings] ;;
         emit (SetSizer self) ;;
         PanelsSwitcher.Show sizer (home_id home) ;;
         ret sizer)%py t w with
  | (inr sizer, w') =>
      inr {| frame := self; home_panel := home; settings_panel := settings;
             sizer := sizer; world := w' |}
  | (inl e, _) => inl e
  end.

End TranscriptionApp.

(** The buttons, and the handler [Bind] gives each (main.py 144-146 and
    230-231).  [dlg] is what the file dialog answers when it is opened. *)
Inductive button :=
| file_button | transcribe_button | settings_button
| return_home_button | save_settings_button.

Definition on_button (b : button) (dlg : option (str * str)) : M State unit :=
  match b with
  | file_button => HomePanel.select_audio_file dlg
  | transcribe_button => HomePanel.transcribe
  | settings_button => HomePanel.show_settings
  | return_home_button => SettingsPanel.return_to_home
  | save_settings_button => SettingsPanel.save_api_key
  end.

(** What can happen to the running application: a click, typing in one of
    the two text controls, or a started job running to its end. *)
Inductive event :=
| Click (b : button) (dlg : option (str * str))
| TypeTitle (v : str)
| TypeApiKey (v : str)
| JobRuns (n : nat).

(** The state after an event; an exception raised by a handler or a job
    leaves the state reached so far. *)
Definition handle (e : event) (s : State) : State :=
  match e with
  | Click b dlg => exec (on_button b dlg) MainThread s
  | TypeTitle v => set_home_panel (set_title_entry v) s
  | TypeApiKey v => set_settings_panel (set_api_key_entry v) s
  | JobRuns n => exec (HomePanel.thread_run n) MainThread s
  end.

Definition run_events (es : list event) (s : State) : State :=
  foldl (λ s e, handle e s) s es.

(** ** More predicates and sample values *)

(** [m] leaves the observation [f] of the state as it was. *)
Definition preserves {S X A} (f : S → X) (m : M S A) : Prop :=
  ∀ t s, f (m t s).2 = f s.

(** The entry that [Show panel] logs for the panel [p]. *)
Definition show_or_hide (t : thread) (panel p : oid) : thread * call :=
  (t, if decide (p = panel) then WindowShow p else WindowHide p).

(** Exactly one of the two panels is shown. *)
Definition one_panel_shown (s : State) : Prop :=
  let home := shown (world s) !! home_id (home_panel s) in
  let settings := shown (world s) !! settings_id (settings_panel s) in
  (home = Some true ∧ settings = Some false)
  ∨ (home = Some false ∧ settings = Some true).

(** The part of the state that decides which panel is shown. *)
Definition ui_structure (s : State)
  : gmap oid bool * PanelsSwitcher * oid * oid :=
  (shown (world s), sizer s, home_id (home_panel s),
   settings_id (settings_panel s)).

(** The sizer holds the two panels, they are two objects, and one of them
    is shown. *)
Definition app_inv (s : State) : Prop :=
  panels (sizer s) = [home_id (home_panel s); settings_id (settings_panel s)]
  ∧ home_id (home_panel s) ≠ settings_id (settings_panel s)
  ∧ one_panel_shown s.



(** The sample application with a file chosen and a key typed, not saved. *)
Definition sample_key_typed : State :=
  set_settings_panel (set_api_key_entry (lit "sk-test")) sample_selected.

(** The sample application as [TranscriptionApp.__init__] builds it. *)
Definition sample_started : State :=
  match TranscriptionApp.__init__ 1 (HomePanel.__init__ 2 4 5)
          {| settings_id := 3; api_key_entry := lit "" |}
          MainThread sample_world with
  | inr s => s
  | inl _ => sample_state
  end.

(** A session: choose a file, open the settings, type and save a key,
    transcribe, and let the job run. *)
Definition sample_session : list event :=
  [Click file_button (Some (lit "talk.mp3", lit "talk.mp3"));
   Click settings_button None;
   TypeApiKey (lit "sk-test");
   Click save_settings_button None;
   Click transcribe_button None;
   JobRuns 0].

(** The sample application where the upload returns an object without a
    [data] attribute, so that [response.data] raises. *)
Definition sample_without_data : State :=
  set_world
    {| shown := shown (world sample_ready);
       environ := environ (world sample_ready);
       openai_api_key := openai_api_key (world sample_ready);
       files := files (world sample_ready);
       getcwd := getcwd (world sample_ready);
       now := now (world sample_ready);
       creatable := creatable (world sample_ready);
       encodable := encodable (world sample_ready);
       remote := λ _, inr (Response (inl AttributeError));
       threads := threads (world sample_ready);
       log := log (world sample_ready) |}
    sample_ready.

(** An ASCII digit. *)
Definition is_digit (c : N) : bool := ((0x30 <=? c) && (c <=? 0x39))%N.

(** * Properties *)

(** ** Splitting and joining *)

Lemma split_from_app_sep (a : str) : ∀ (word : str) (sep : N) (b : str),
  isspace sep = true →
  split_from word (a ++ sep :: b) = split_from word a ++ split b.
Proof.
  induction a as [|c a IH]; intros word sep b Hsep; simpl.
  - rewrite Hsep. by destruct word.
  - destruct (isspace c); [destruct word|]; by rewrite IH.
Qed.

Lemma split_app_sep (a b : str) (sep : N) :
  isspace sep = true → split (a ++ sep :: b) = split a ++ split b.
Proof. apply split_from_app_sep. Qed.

Lemma split_from_nospace (w : str) : ∀ word : str,
  nospace w →
  split_from word w = match word ++ w with [] => [] | _ => [word ++ w] end.
Proof.
  induction w as [|c w IH]; intros word Hw; simpl.
  - by rewrite app_nil_r.
  - inversion Hw as [|? ? Hc Hw']; subst. rewrite Hc, (IH _ Hw').
    by rewrite <- app_assoc.
Qed.

Lemma split_word (w : str) : is_word w → split w = [w].
Proof.
  intros [Hne Hw]. unfold split. rewrite split_from_nospace by done.
  simpl. by destruct w.
Qed.

Lemma split_from_words (s : str) : ∀ word : str,
  nospace word → Forall is_word (split_from word s).
Proof.
  induction s as [|c s IH]; intros word Hword; simpl.
  - destruct word; constructor; [by split|constructor].
  - destruct (isspace c) eqn:Hc.
    + destruct word.
      * apply IH. constructor.
      * constructor; [by split|]. apply IH. constructor.
    + apply IH. apply Forall_app. split; [done|].
      constructor; [done|constructor].
Qed.

Lemma split_words (s : str) : Forall is_word (split s).
Proof. apply split_from_words. constructor. Qed.

Lemma split_join_newline (l : list str) :
  split (join [0x0A%N] l) = concat (split <$> l).
Proof.
  induction l as [|x l IH]; [done|].
  destruct l as [|y l].
  - simpl. by rewrite app_nil_r.
  - change (join [0x0A%N] (x :: y :: l))
      with (x ++ 0x0A%N :: join [0x0A%N] (y :: l)).
    rewrite split_app_sep by done. by rewrite IH.
Qed.

(** ** The wrapping loop *)

Section wrap.
Variable line_length : Z.

Lemma add_newlines_step_words (lines : list str) (cl w : str) :
  is_word w →
  let '(lines', cl') := add_newlines_step line_length (lines, cl) w in
  concat (split <$> lines' ++ [cl'])
  = concat (split <$> lines ++ [cl]) ++ [w].
Proof.
  intros Hw. unfold add_newlines_step. change (lit " ") with [32%N].
  destruct (_ <=? _)%Z.
  - rewrite !fmap_app, !concat_app. simpl. rewrite !app_nil_r, <- app_assoc.
    f_equal. destruct cl as [|c cl]; simpl.
    + by apply split_word.
    + change (c :: cl ++ 32%N :: w) with ((c :: cl) ++ 32%N :: w).
      rewrite split_app_sep by done. by rewrite (split_word w).
  - rewrite !fmap_app, !concat_app. simpl. rewrite !app_nil_r.
    by rewrite (split_word w).
Qed.

Lemma add_newlines_loop_words (ws : list str) : ∀ (lines : list str) (cl : str),
  Forall is_word ws →
  let '(lines', cl') :=
    foldl (add_newlines_step line_length) (lines, cl) ws in
  concat (split <$> lines' ++ [cl'])
  = concat (split <$> lines ++ [cl]) ++ ws.
Proof.
  induction ws as [|w ws IH]; intros lines cl Hws; cbn [foldl].
  - by rewrite app_nil_r.
  - inversion Hws as [|? ? Hw Hws']; subst.
    pose proof (add_newlines_step_words lines cl w Hw) as Hstep.
    destruct (add_newlines_step line_length (lines, cl) w) as [lines1 cl1].
    specialize (IH lines1 cl1 Hws').
    destruct (foldl _ _ ws) as [lines2 cl2].
    rewrite IH, Hstep. by rewrite <- app_assoc.
Qed.

(** The words of the lines are the words of the input, in order. *)
Lemma add_newlines_lines_words (s : str) :
  concat (split <$> add_newlines_lines s line_length) = split s.
Proof.
  unfold add_newlines_lines.
  pose proof (add_newlines_loop_words (split s) [] [] (split_words s)) as H.
  destruct (foldl _ _ (split s)) as [lines cl].
  simpl in H. destruct cl as [|c cl]; simpl; [|done].
  rewrite fmap_app, concat_app in H. simpl in H.
  by rewrite app_nil_r in H.
Qed.

Lemma add_newlines_words (s : str) :
  split (add_newlines s line_length) = split s.
Proof.
  unfold add_newlines. rewrite split_join_newline.
  apply add_newlines_lines_words.
Qed.

(** Every line is empty, or one word of the input, or at most
    [line_length + 1] long. *)
Lemma add_newlines_loop_bound (all : list str) (ws : list str) :
  ∀ (lines : list str) (cl : str),
  ws ⊆ all → Forall (line_ok line_length all) lines → line_ok line_length all cl →
  let '(lines', cl') :=
    foldl (add_newlines_step line_length) (lines, cl) ws in
  Forall (line_ok line_length all) lines' ∧ line_ok line_length all cl'.
Proof.
  induction ws as [|w ws IH]; intros lines cl Hsub Hlines Hcl; cbn [foldl].
  - done.
  - assert (w ∈ all) by (apply Hsub; left).
    assert (ws ⊆ all) by (intros x Hx; apply Hsub; by right).
    unfold add_newlines_step at 2. change (lit " ") with [32%N].
    destruct (_ <=? _)%Z eqn:Hle.
    + apply IH; [done..|].
      destruct cl as [|c cl]; simpl.
      * right. by left.
      * right. right. apply Z.leb_le in Hle. unfold len in *.
        simpl in *. rewrite length_app. simpl. lia.
    + apply IH; [done| |].
      * apply Forall_app. split; [done|]. by constructor.
      * right. by left.
Qed.

Lemma add_newlines_lines_bound (s : str) :
  Forall (line_ok line_length (split s)) (add_newlines_lines s line_length).
Proof.
  unfold add_newlines_lines.
  pose proof (add_newlines_loop_bound (split s) (split s) [] []) as H.
  destruct (foldl _ _ (split s)) as [lines cl].
  destruct H as [Hl Hc]; [done|constructor|by left|].
  destruct (truthy cl); [|done].
  apply Forall_app. split; [done|]. by constructor.
Qed.

End wrap.

(** ** The switcher *)

Lemma Window_set_run (p panel : oid) (t : thread) (w : World) :
  (if decide (p = panel) then Window_Show p else Window_Hide p) t w
  = (inr tt,
     set_log (λ l, l ++ [(t, if decide (p = panel)
                             then WindowShow p else WindowHide p)])
       (set_shown <[p := bool_decide (p = panel)]> w)).
Proof.
  destruct (decide (p = panel)) as [Heq|Hne].
  - by rewrite bool_decide_eq_true_2.
  - by rewrite bool_decide_eq_false_2.
Qed.

(** The loop of [Show]: it cannot raise, and it sets the flag of every
    panel of the list and of no other window. *)
Lemma Show_loop_spec (panel : oid) (t : thread) (l : list oid) : ∀ w : World,
  ∃ w', for_each l
          (λ p, if decide (p = panel) then Window_Show p else Window_Hide p) t w
        = (inr tt, w')
      ∧ ∀ p, shown w' !! p
             = if decide (p ∈ l) then Some (bool_decide (p = panel))
               else shown w !! p.
Proof.
  induction l as [|x l IH]; intros w.
  - exists w. split; [done|]. intros p. by rewrite decide_False by set_solver.
  - cbn [for_each]. unfold bind at 1. rewrite Window_set_run.
    destruct (IH (set_log (λ l0, l0 ++ [(t, if decide (x = panel)
                                             then WindowShow x
                                             else WindowHide x)])
                    (set_shown <[x := bool_decide (x = panel)]> w)))
      as (w' & Hrun & Hshown).
    exists w'. split; [done|]. intros p. rewrite Hshown. cbn [shown set_log set_shown].
    destruct (decide (p ∈ l)) as [Hin|Hnin].
    + by rewrite decide_True by set_solver.
    + destruct (decide (p = x)) as [->|Hne].
      * rewrite lookup_insert_eq. by rewrite decide_True by set_solver.
      * rewrite lookup_insert_ne by done.
        by rewrite decide_False by (rewrite elem_of_cons; tauto).
Qed.

Lemma Show_spec (self : PanelsSwitcher) (panel : oid) (t : thread) (w : World) :
  ∃ w', PanelsSwitcher.Show self panel t w = (inr tt, w')
      ∧ ∀ p, shown w' !! p
             = if decide (p ∈ panels self) then Some (bool_decide (p = panel))
               else shown w !! p.
Proof.
  destruct (Show_loop_spec panel t (panels self) w) as (w1 & Hrun & Hshown).
  eexists. unfold PanelsSwitcher.Show, bind. rewrite Hrun. split; [done|].
  done.
Qed.

Lemma for_each_emit_run (f : oid → call) (t : thread) (l : list oid) :
  ∀ w : World, ∃ w', for_each l (λ p, emit (f p)) t w = (inr tt, w')
                   ∧ shown w' = shown w.
Proof.
  induction l as [|x l IH]; intros w.
  - by exists w.
  - cbn [for_each]. unfold bind at 1. cbn [emit].
    destruct (IH (set_log (λ l0, l0 ++ [(t, f x)]) w)) as (w' & Hrun & Hshown).
    exists w'. by split.
Qed.

(** [__init__] on a non-empty list succeeds and leaves the first panel as
    the only one shown. *)
Lemma init_spec (parent first : oid) (rest : list oid) (t : thread) (w : World) :
  ∃ w', PanelsSwitcher.__init__ parent (first :: rest) t w
        = (inr {| parent := parent; panels := first :: rest |}, w')
      ∧ ∀ p, shown w' !! p
             = if decide (p ∈ first :: rest) then Some (bool_decide (p = first))
               else shown w !! p.
Proof.
  unfold PanelsSwitcher.__init__. unfold bind at 1. cbn [emit].
  unfold bind at 1.
  destruct (for_each_emit_run SizerAdd t (first :: rest)
              (set_log (λ l, l ++ [(t, SetSizer parent)]) w))
    as (w1 & Hrun1 & Hshown1).
  rewrite Hrun1. unfold bind at 1. cbn [ret]. unfold bind at 1.
  destruct (Show_spec {| parent := parent; panels := first :: rest |} first t w1)
    as (w2 & Hrun2 & Hshown2).
  rewrite Hrun2. exists w2. split; [done|].
  intros p. rewrite Hshown2. cbn [panels]. by rewrite Hshown1.
Qed.

(** C1.  Exactly one managed view is visible.  For a non-empty list of
    views, [__init__] succeeds and leaves the first view shown and every
    other managed view hidden; [Show v] for a managed [v], from any prior
    state, cannot raise and leaves [v] shown and every other managed view
    hidden; a second [Show v] does not change the visibility flags. *)
Theorem switcher_exactly_one_visible
    (parent first v : oid) (rest : list oid) (t : thread) (w w0 : World) :
  v ∈ first :: rest →
  let views := first :: rest in
  let self := {| parent := parent; panels := views |} in
  (result (PanelsSwitcher.__init__ parent views) t w = inr self
   ∧ Forall (λ p, shown (exec (PanelsSwitcher.__init__ parent views) t w) !! p
                  = Some (bool_decide (p = first))) views)
  ∧ (result (PanelsSwitcher.Show self v) t w0 = inr tt
     ∧ Forall (λ p, shown (exec (PanelsSwitcher.Show self v) t w0) !! p
                    = Some (bool_decide (p = v))) views)
  ∧ shown (exec (PanelsSwitcher.Show self v) t
             (exec (PanelsSwitcher.Show self v) t w0))
    = shown (exec (PanelsSwitcher.Show self v) t w0).
Proof.
  intros Hv views self. unfold result, exec.
  destruct (init_spec parent first rest t w) as (w1 & Hinit & Hshown1).
  destruct (Show_spec self v t w0) as (w2 & Hshow & Hshown2).
  destruct (Show_spec self v t w2) as (w3 & Hshow' & Hshown3).
  fold views in Hinit. rewrite Hinit, Hshow. cbn [fst snd]. rewrite Hshow'.
  cbn [snd]. repeat split.
  - apply Forall_forall. intros p Hp. rewrite Hshown1. by rewrite decide_True.
  - apply Forall_forall. intros p Hp. rewrite Hshown2. by rewrite decide_True.
  - apply map_eq. intros p. rewrite Hshown3, Hshown2.
    by destruct (decide (p ∈ panels self)).
Qed.

Lemma switcher_exactly_one_visible_witness :
  (3%positive ∈ [2%positive; 3%positive])
  ∧ shown (exec (PanelsSwitcher.Show sample_sizer 3)
             MainThread sample_world) !! 2%positive = Some false
  ∧ shown (exec (PanelsSwitcher.Show sample_sizer 3)
             MainThread sample_world) !! 3%positive = Some true.
Proof.
  assert (H : 3%positive ∈ [2%positive; 3%positive]) by (by right; left).
  split; [exact H|].
  pose proof (switcher_exactly_one_visible 1 2 3 [3%positive] MainThread
                sample_world sample_world H) as (_ & (_ & Hall) & _).
  change {| parent := 1; panels := [2%positive; 3%positive] |}
    with sample_sizer in Hall.
  inversion Hall as [|? ? H2 Hall']; subst.
  inversion Hall' as [|? ? H3 _]; subst.
  split; [exact H2 | exact H3].
Defined.

(** C2 as stated fails: showing a view that is not managed changes the
    visibility of the managed views. *)
Lemma show_non_member_not_noop :
  (4%positive ∉ panels sample_sizer)
  ∧ shown sample_world !! 2%positive = Some true
  ∧ shown (exec (PanelsSwitcher.Show sample_sizer 4) MainThread sample_world)
      !! 2%positive = Some false
  ∧ shown (exec (PanelsSwitcher.Show sample_sizer 4) MainThread sample_world)
    ≠ shown sample_world.
Proof.
  assert (Hafter :
    shown (exec (PanelsSwitcher.Show sample_sizer 4) MainThread sample_world)
      !! 2%positive = Some false)
    by (vm_compute; reflexivity).
  assert (Hbefore : shown sample_world !! 2%positive = Some true)
    by (vm_compute; reflexivity).
  split; [|split; [exact Hbefore|split; [exact Hafter|]]].
  - cbn [panels sample_sizer]. rewrite !not_elem_of_cons. repeat split; try discriminate.
    apply not_elem_of_nil.
  - intros Heq. rewrite Heq in Hafter. rewrite Hbefore in Hafter. discriminate.
Qed.

Lemma Show_loop_exact (panel : oid) (t : thread) (l : list oid) : ∀ w : World,
  for_each l
    (λ p, if decide (p = panel) then Window_Show p else Window_Hide p) t w
  = (inr tt,
     with_ui (foldl (λ m p, <[p := bool_decide (p = panel)]> m) (shown w) l)
       (log w ++ (show_or_hide t panel <$> l)) w).
Proof.
  induction l as [|x l IH]; intros w.
  - cbn. rewrite app_nil_r. by destruct w.
  - cbn [for_each]. unfold bind at 1. rewrite Window_set_run, IH.
    cbn [foldl fmap list_fmap]. f_equal. unfold with_ui. cbn.
    by rewrite <- app_assoc.
Qed.

Lemma Show_exact (self : PanelsSwitcher) (panel : oid) (t : thread) (w : World) :
  PanelsSwitcher.Show self panel t w
  = (inr tt,
     with_ui (foldl (λ m p, <[p := bool_decide (p = panel)]> m) (shown w)
                (panels self))
       (log w ++ (show_or_hide t panel <$> panels self)
        ++ [(t, Layout (parent self))]) w).
Proof.
  unfold PanelsSwitcher.Show, bind. rewrite Show_loop_exact.
  unfold with_ui, emit, set_log, set_shown. cbn. by rewrite <- app_assoc.
Qed.

Lemma show_or_hide_non_member (t : thread) (v : oid) (l : list oid) :
  v ∉ l → show_or_hide t v <$> l = (λ p, (t, WindowHide p)) <$> l.
Proof.
  induction l as [|x l IH]; [done|].
  rewrite not_elem_of_cons. intros [Hne Hl]. cbn. f_equal; [|by apply IH].
  unfold show_or_hide. by rewrite decide_False.
Qed.

(** C2, amended.  [Show v] for a [v] outside the managed list cannot
    raise, hides every managed view, leaves the flag of every other window
    as it was, and still lays the parent out: it calls [Hide()] on every
    panel and then [Layout()] on the parent, once. *)
Theorem show_non_member_hides_all
    (self : PanelsSwitcher) (v : oid) (t : thread) (w : World) :
  v ∉ panels self →
  result (PanelsSwitcher.Show self v) t w = inr tt
  ∧ Forall (λ p, shown (exec (PanelsSwitcher.Show self v) t w) !! p = Some false)
      (panels self)
  ∧ (∀ q, q ∉ panels self →
          shown (exec (PanelsSwitcher.Show self v) t w) !! q = shown w !! q)
  ∧ log (exec (PanelsSwitcher.Show self v) t w)
    = log w ++ ((λ p, (t, WindowHide p)) <$> panels self)
      ++ [(t, Layout (parent self))].
Proof.
  intros Hv. unfold result, exec.
  destruct (Show_spec self v t w) as (w' & Hshow & Hshown).
  rewrite Hshow. cbn [fst snd]. repeat split.
  - apply Forall_forall. intros p Hp. rewrite Hshown, decide_True by done.
    rewrite bool_decide_eq_false_2; [done|]. by intros ->.
  - intros q Hq. by rewrite Hshown, decide_False.
  - rewrite Show_exact in Hshow. injection Hshow as <-.
    cbn. by rewrite show_or_hide_non_member.
Qed.

Lemma show_non_member_hides_all_witness :
  (4%positive ∉ [2%positive; 3%positive])
  ∧ Forall (λ p, shown (exec (PanelsSwitcher.Show sample_sizer 4)
                          MainThread sample_world) !! p = Some false)
      [2%positive; 3%positive]
  ∧ log (exec (PanelsSwitcher.Show sample_sizer 4) MainThread sample_world)
    = [(MainThread, WindowHide 2); (MainThread, WindowHide 3);
       (MainThread, Layout 1)].
Proof.
  assert (H : 4%positive ∉ [2%positive; 3%positive]).
  { rewrite !not_elem_of_cons. repeat split; try discriminate.
    apply not_elem_of_nil. }
  split; [exact H|].
  split.
  - exact (proj1 (proj2 (show_non_member_hides_all
                           sample_sizer 4 MainThread sample_world H))).
  - exact (proj2 (proj2 (proj2 (show_non_member_hides_all
                                  sample_sizer 4 MainThread sample_world H)))).
Defined.

(** C8 as stated fails: on an empty list [__init__] raises the
    [IndexError] of [panels[0]], and it does so after the sizer has been
    set on the parent; no check rejects the list before anything is
    done. *)
Lemma init_empty_raises_IndexError_after_SetSizer :
  result (PanelsSwitcher.__init__ 1 []) MainThread sample_world = inl IndexError
  ∧ log (exec (PanelsSwitcher.__init__ 1 []) MainThread sample_world)
    = [(MainThread, SetSizer 1)]
  ∧ exec (PanelsSwitcher.__init__ 1 []) MainThread sample_world ≠ sample_world.
Proof.
  split; [reflexivity|]. split; [reflexivity|].
  intros Heq. apply (f_equal log) in Heq. discriminate.
Qed.

(** C8, amended.  [__init__] on an empty list raises the [IndexError] of
    [panels[0]], with the sizer already set on the parent and nothing else
    changed; on a non-empty list it returns, and neither [Show] nor
    [add_panel] can raise. *)
Theorem switcher_only_failure_is_empty_list
    (container : oid) (t : thread) (w : World) :
  result (PanelsSwitcher.__init__ container []) t w = inl IndexError
  ∧ exec (PanelsSwitcher.__init__ container []) t w
    = set_log (λ l, l ++ [(t, SetSizer container)]) w
  ∧ (∀ first rest,
       result (PanelsSwitcher.__init__ container (first :: rest)) t w
       = inr {| parent := container; panels := first :: rest |})
  ∧ (∀ self v, result (PanelsSwitcher.Show self v) t w = inr tt)
  ∧ (∀ self v,
       result (PanelsSwitcher.add_panel self v) t w
       = inr {| parent := parent self; panels := panels self ++ [v] |}).
Proof.
  repeat split.
  - intros first rest. unfold result.
    destruct (init_spec container first rest t w) as (w' & Hinit & _).
    by rewrite Hinit.
  - intros self v. unfold result.
    destruct (Show_spec self v t w) as (w' & Hshow & _). by rewrite Hshow.
Qed.

(** ** Wrapping at 50 *)

(** C3.  On two words of 25 letters, [add_newlines] at 50 returns one line
    of 51 characters although no word is longer than 50: the test
    [len(current_line) + len(word) <= line_length] leaves out the space
    that joins them.  The words of the output are those of the input. *)
Theorem add_newlines_line_of_51 :
  add_newlines two_words 50 = two_words
  ∧ add_newlines_lines two_words 50 = [two_words]
  ∧ len two_words = 51%Z
  ∧ Forall (λ w, len w = 25%Z) (split two_words)
  ∧ split (add_newlines two_words 50) = split two_words.
Proof.
  assert (Hsplit : split two_words
                   = [lit "aaaaaaaaaaaaaaaaaaaaaaaaa";
                      lit "bbbbbbbbbbbbbbbbbbbbbbbbb"])
    by (vm_compute; reflexivity).
  split; [vm_compute; reflexivity|].
  split; [vm_compute; reflexivity|].
  split; [vm_compute; reflexivity|].
  split; [|apply add_newlines_words].
  rewrite Hsplit. by repeat constructor.
Qed.

(** ** The title of the transcript *)

Lemma is_valid_filename_true (filename : str) :
  is_valid_filename filename = inr true.
Proof. reflexivity. Qed.

Lemma transcript_title_run (t : thread) (s : State) :
  HomePanel.transcript_title t s
  = (inr (if bool_decide (title_entry (home_panel s) = [])
          then lit "transcript_" ++ strftime (now (world s))
          else title_entry (home_panel s)), s).
Proof.
  unfold HomePanel.transcript_title, bind, gets, lift_exn, ret.
  rewrite is_valid_filename_true. change (lit "") with (@nil N).
  by destruct (bool_decide (title_entry (home_panel s) = [])).
Qed.

Lemma digit_value_digit (n : N) : digit_value (digit n) = (n mod 10)%N.
Proof. unfold digit_value, digit. by apply N.add_sub_eq_l. Qed.

Lemma pad2_decimal (n : N) : (n ≤ 99)%N → decimal (pad2 n) = n.
Proof.
  intros Hn. unfold decimal, pad2. cbn [foldl]. rewrite !digit_value_digit.
  pose proof (N.div_mod' n 10). pose proof (N.div_mod' (n / 10) 10).
  pose proof (N.mod_lt n 10). pose proof (N.mod_lt (n / 10) 10).
  generalize dependent ((n / 10) mod 10)%N. generalize dependent (n / 10 / 10)%N.
  generalize dependent (n mod 10)%N. generalize dependent (n / 10)%N.
  intros. lia.
Qed.

Lemma pad4_decimal (n : N) : (n ≤ 9999)%N → decimal (pad4 n) = n.
Proof.
  intros Hn. unfold decimal, pad4. cbn [foldl]. rewrite !digit_value_digit.
  change 1000%N with (10 * 10 * 10)%N. change 100%N with (10 * 10)%N.
  rewrite <- !N.Div0.div_div.
  pose proof (N.div_mod' n 10). pose proof (N.div_mod' (n / 10) 10).
  pose proof (N.div_mod' (n / 10 / 10) 10).
  pose proof (N.div_mod' (n / 10 / 10 / 10) 10).
  pose proof (N.mod_lt n 10). pose proof (N.mod_lt (n / 10) 10).
  pose proof (N.mod_lt (n / 10 / 10) 10).
  pose proof (N.mod_lt (n / 10 / 10 / 10) 10).
  generalize dependent ((n / 10 / 10 / 10) mod 10)%N.
  generalize dependent ((n / 10 / 10) mod 10)%N.
  generalize dependent ((n / 10) mod 10)%N.
  generalize dependent (n mod 10)%N.
  generalize dependent (n / 10 / 10 / 10 / 10)%N.
  generalize dependent (n / 10 / 10 / 10)%N.
  generalize dependent (n / 10 / 10)%N.
  generalize dependent (n / 10)%N.
  intros. lia.
Qed.

(** The time stamp has 19 characters, and on a [datetime] in range its
    digit groups read back as the fields. *)
Lemma strftime_fields (d : datetime) :
  datetime_ok d = true →
  length (strftime d) = 19%nat
  ∧ decimal (pad4 (year d)) = year d
  ∧ decimal (pad2 (month d)) = month d
  ∧ decimal (pad2 (day d)) = day d
  ∧ decimal (pad2 (hour d)) = hour d
  ∧ decimal (pad2 (minute d)) = minute d
  ∧ decimal (pad2 (second d)) = second d.
Proof.
  unfold datetime_ok. rewrite !andb_true_iff, !N.leb_le.
  intros Hd. split; [reflexivity|].
  repeat split; (apply pad4_decimal || apply pad2_decimal); lia.
Qed.

(** C10.  [is_valid_filename] returns [True] on every string, so the
    title chosen by [save_transcript] is the typed title whenever that is
    not empty, whatever characters it holds, and the time stamp only when
    it is empty. *)
Theorem is_valid_filename_never_rejects (filename : str) (t : thread) (s : State) :
  is_valid_filename filename = inr true
  ∧ result HomePanel.transcript_title t s
    = inr (if bool_decide (title_entry (home_panel s) = lit "")
           then lit "transcript_" ++ strftime (now (world s))
           else title_entry (home_panel s))
  ∧ exec HomePanel.transcript_title t s = s.
Proof.
  unfold result, exec. rewrite transcript_title_run.
  split; [apply is_valid_filename_true|]. by split.
Qed.

(** C6.  A title with a character that file names cannot hold is not
    replaced by the time stamp: the title with a question mark is used
    as it is, and on a system that refuses the character [save_transcript]
    raises from [open] and writes nothing.  A title with a path separator
    is used as it is too. *)
Theorem invalid_title_is_used_as_stem :
  result HomePanel.transcript_title MainThread (sample_titled (lit "what?"))
  = inr (lit "what?")
  ∧ result (HomePanel.save_transcript (lit "hello world")) MainThread
      (sample_titled (lit "what?"))
    = inl (OSError (lit "what?.txt"))
  ∧ files (world (exec (HomePanel.save_transcript (lit "hello world"))
                    MainThread (sample_titled (lit "what?"))))
    = files (world (sample_titled (lit "what?")))
  ∧ result HomePanel.transcript_title MainThread (sample_titled (lit "a/b"))
    = inr (lit "a/b").
Proof.
  repeat split; vm_compute; reflexivity.
Qed.

(** ** [transcribe] *)

Ltac run_panel :=
  unfold HomePanel.transcribe, HomePanel.clear_error, HomePanel.notify_error,
    HomePanel.error_label_SetLabel, HomePanel.error_label_SetForegroundColour,
    HomePanel.self_Layout, Thread_start, in_world, zoom, bind, gets, get,
    modify, emit, ret, result, exec;
  cbn.


Ltac panel_facts :=
  unfold shows; repeat split; intros; simplify_eq; cbn in *; try done.

(** C4.  [transcribe] never raises.  With no file selected it starts no
    thread and shows "No audio file selected." in red; with a file selected
    and no [OPENAI_API_KEY] in the environment it starts no thread and shows
    "No API key provided." in red; whenever it starts a thread, a file is
    selected, the key is in the environment, exactly one thread is started,
    and [transcribe] returns after logging the start, without touching the
    files. *)
Theorem transcribe_guards (t : thread) (s : State) :
  let s' := exec HomePanel.transcribe t s in
  result HomePanel.transcribe t s = inr tt
  ∧ (selected_file (home_panel s) = None →
     threads (world s') = threads (world s)
     ∧ shows s' red (lit "No audio file selected."))
  ∧ (∀ path, selected_file (home_panel s) = Some path → path ≠ [] →
     environ (world s) !! lit "OPENAI_API_KEY" = None →
     threads (world s') = threads (world s)
     ∧ shows s' red (lit "No API key provided."))
  ∧ (threads (world s') ≠ threads (world s) →
     is_Some (selected_file (home_panel s))
     ∧ is_Some (environ (world s) !! lit "OPENAI_API_KEY")
     ∧ threads (world s') = S (threads (world s))
     ∧ files (world s') = files (world s)
     ∧ log (world s')
       = log (world s)
         ++ [(t, SetLabel (window_id (error_label (home_panel s))) (lit ""));
             (t, Layout (home_id (home_panel s)));
             (t, ThreadStart (threads (world s)))]).
Proof.
  run_panel.
  destruct (selected_file (home_panel s)) as [[|c path]|] eqn:Hsel; cbn.
  - panel_facts.
  - destruct (environ (world s) !! lit "OPENAI_API_KEY") as [[|k key]|] eqn:Hkey;
      cbn; panel_facts; eauto.
    by rewrite <- !app_assoc.
  - panel_facts.
Qed.

Lemma transcribe_guards_witness :
  (selected_file (home_panel sample_state) = None
   ∧ shows (exec HomePanel.transcribe MainThread sample_state) red
       (lit "No audio file selected."))
  ∧ (environ (world sample_selected) !! lit "OPENAI_API_KEY" = None
     ∧ shows (exec HomePanel.transcribe MainThread sample_selected) red
         (lit "No API key provided."))
  ∧ (threads (world (exec HomePanel.transcribe MainThread sample_ready))
     ≠ threads (world sample_ready)
     ∧ threads (world (exec HomePanel.transcribe MainThread sample_ready)) = 1).
Proof.
  assert (H1 : selected_file (home_panel sample_state) = None) by reflexivity.
  assert (H2 : selected_file (home_panel sample_selected)
               = Some (lit "talk.mp3")) by reflexivity.
  assert (H2' : lit "talk.mp3" ≠ []) by discriminate.
  assert (H2'' : environ (world sample_selected) !! lit "OPENAI_API_KEY" = None)
    by (vm_compute; reflexivity).
  assert (H3 : threads (world (exec HomePanel.transcribe MainThread sample_ready))
               ≠ threads (world sample_ready)) by (vm_compute; discriminate).
  split; [split; [exact H1|]|split; [split; [exact H2''|]|split; [exact H3|]]].
  - exact (proj2 (proj1 (proj2 (transcribe_guards MainThread sample_state)) H1)).
  - exact (proj2 (proj1 (proj2 (proj2
             (transcribe_guards MainThread sample_selected))) _ H2 H2' H2'')).
  - exact (proj1 (proj2 (proj2 (proj2 (proj2 (proj2
             (transcribe_guards MainThread sample_ready))) H3)))).
Defined.

(** ** Saving the API key *)

Lemma Show_loop_frame (panel : oid) (t : thread) (l : list oid) : ∀ w : World,
  ∃ sh lg, for_each l
             (λ p, if decide (p = panel) then Window_Show p else Window_Hide p)
             t w
           = (inr tt, with_ui sh lg w).
Proof.
  induction l as [|x l IH]; intros w.
  - exists (shown w), (log w). by destruct w.
  - cbn [for_each]. unfold bind at 1. rewrite Window_set_run.
    destruct (IH (set_log (λ l0, l0 ++ [(t, if decide (x = panel)
                                             then WindowShow x
                                             else WindowHide x)])
                    (set_shown <[x := bool_decide (x = panel)]> w)))
      as (sh & lg & Hrun).
    exists sh, lg. by rewrite Hrun.
Qed.

(** [Show] changes the visibility flags and the log, and nothing else. *)
Lemma Show_frame (self : PanelsSwitcher) (panel : oid) (t : thread) (w : World) :
  ∃ sh lg, PanelsSwitcher.Show self panel t w = (inr tt, with_ui sh lg w).
Proof.
  destruct (Show_loop_frame panel t (panels self) w) as (sh & lg & Hrun).
  exists sh, (lg ++ [(t, Layout (parent self))]).
  unfold PanelsSwitcher.Show, bind. by rewrite Hrun.
Qed.

(** [save_api_key] stores the entry, whatever it is, and goes back home:
    the panels keep their fields. *)
Lemma save_api_key_run (t : thread) (s : State) :
  ∃ sh lg,
    SettingsPanel.save_api_key t s
    = (inr tt,
       set_world
         (with_ui sh lg
            (set_openai_api_key (Some (api_key_entry (settings_panel s)))
               (set_environ
                  <[lit "OPENAI_API_KEY" := api_key_entry (settings_panel s)]>
                  (world s))))
         s).
Proof.
  unfold SettingsPanel.save_api_key, SettingsPanel.return_to_home, in_world,
    zoom, bind, get, modify. cbn.
  destruct (Show_frame (sizer s) (home_id (home_panel s)) t
              (set_openai_api_key (Some (api_key_entry (settings_panel s)))
                 (set_environ
                    <[lit "OPENAI_API_KEY" := api_key_entry (settings_panel s)]>
                    (world s))))
    as (sh & lg & Hrun).
  exists sh, lg. by rewrite Hrun.
Qed.

(** C5 as stated fails: after saving an empty key, [transcribe] with a
    file selected starts no thread and shows the local "No API key
    provided." error. *)
Lemma empty_credential_rejected_locally :
  let s1 := exec SettingsPanel.save_api_key MainThread sample_selected in
  let s2 := exec HomePanel.transcribe MainThread s1 in
  api_key_entry (settings_panel sample_selected) = lit ""
  ∧ selected_file (home_panel s1) = Some (lit "talk.mp3")
  ∧ environ (world s1) !! lit "OPENAI_API_KEY" = Some (lit "")
  ∧ threads (world s2) ≠ S (threads (world s1))
  ∧ shows s2 red (lit "No API key provided.").
Proof.
  repeat split; try (vm_compute; reflexivity).
  vm_compute. discriminate.
Qed.

(** C5, amended.  An empty key can be saved: it is then in the environment
    (and in [openai.api_key]) as the empty string, which the store tells
    apart from no key.  [transcribe] does not tell them apart: with a file
    selected it starts no thread and shows "No API key provided.", exactly
    as when no key was ever saved. *)
Theorem empty_credential_is_treated_as_absent
    (t : thread) (s : State) (path : str) :
  selected_file (home_panel s) = Some path → path ≠ [] →
  api_key_entry (settings_panel s) = lit "" →
  let s1 := exec SettingsPanel.save_api_key t s in
  let s2 := exec HomePanel.transcribe t s1 in
  result SettingsPanel.save_api_key t s = inr tt
  ∧ environ (world s1) !! lit "OPENAI_API_KEY" = Some (lit "")
  ∧ openai_api_key (world s1) = Some (lit "")
  ∧ result HomePanel.transcribe t s1 = inr tt
  ∧ threads (world s2) = threads (world s)
  ∧ shows s2 red (lit "No API key provided.").
Proof.
  intros Hsel Hpath Hentry. unfold result, exec.
  destruct (save_api_key_run t s) as (sh & lg & Hrun). rewrite Hrun, Hentry.
  cbn [fst snd]. split; [done|]. split; [cbn; by rewrite lookup_insert_eq|].
  split; [done|].
  run_panel. rewrite Hsel. destruct path as [|c path]; [done|]. cbn.
  rewrite lookup_insert_eq. change (lit "") with (@nil N). cbn.
  panel_facts.
Qed.

Lemma empty_credential_is_treated_as_absent_witness :
  selected_file (home_panel sample_selected) = Some (lit "talk.mp3")
  ∧ api_key_entry (settings_panel sample_selected) = lit ""
  ∧ shows (exec HomePanel.transcribe MainThread
             (exec SettingsPanel.save_api_key MainThread sample_selected))
      red (lit "No API key provided.").
Proof.
  assert (H1 : selected_file (home_panel sample_selected)
               = Some (lit "talk.mp3")) by reflexivity.
  assert (H2 : lit "talk.mp3" ≠ []) by discriminate.
  assert (H3 : api_key_entry (settings_panel sample_selected) = lit "")
    by reflexivity.
  split; [exact H1|split; [exact H3|]].
  exact (proj2 (proj2 (proj2 (proj2 (proj2
           (empty_credential_is_treated_as_absent MainThread sample_selected
              (lit "talk.mp3") H1 H2 H3)))))).
Defined.

(** ** Which thread does what *)

Section tagged.
Context {S : Type} (lg : S → list (thread * call)).

Lemma tagged_ret {A} (a : A) : tagged lg (ret a).
Proof. intros t s. exists []. by rewrite app_nil_r. Qed.

Lemma tagged_raise {A} (e : exn) : tagged lg (@raise S A e).
Proof. intros t s. exists []. by rewrite app_nil_r. Qed.

Lemma tagged_lift_exn {A} (r : exn + A) : tagged lg (lift_exn r).
Proof. intros t s. exists []. by rewrite app_nil_r. Qed.

Lemma tagged_get : tagged lg get.
Proof. intros t s. exists []. by rewrite app_nil_r. Qed.

Lemma tagged_gets {A} (f : S → A) : tagged lg (gets f).
Proof. intros t s. exists []. by rewrite app_nil_r. Qed.

Lemma tagged_modify (f : S → S) :
  (∀ s, lg (f s) = lg s) → tagged lg (modify f).
Proof. intros Hf t s. exists []. cbn. by rewrite Hf, app_nil_r. Qed.

Lemma tagged_bind {A B} (m : M S A) (k : A → M S B) :
  tagged lg m → (∀ a, tagged lg (k a)) → tagged lg (bind m k).
Proof.
  intros Hm Hk t s. unfold bind.
  destruct (Hm t s) as (new1 & Hlog1 & Htag1).
  destruct (m t s) as [[e|a] s1]; cbn in *.
  - by exists new1.
  - destruct (Hk a t s1) as (new2 & Hlog2 & Htag2).
    exists (new1 ++ new2). rewrite Hlog2, Hlog1, app_assoc.
    split; [done|]. by apply Forall_app.
Qed.

Lemma tagged_run_as {A} (t' : thread) (m : M S A) :
  tagged lg m →
  ∀ t s, ∃ new, lg (run_as t' m t s).2 = lg s ++ new
              ∧ Forall (λ e, e.1 = t') new.
Proof. intros Hm t s. apply Hm. Qed.
End tagged.

Create HintDb tagged.

#[local] Hint Resolve tagged_ret tagged_raise tagged_lift_exn tagged_get
  tagged_gets tagged_bind : tagged.

Lemma tagged_emit (c : call) : tagged log (emit c).
Proof. intros t w. exists [(t, c)]. split; [done|]. by repeat constructor. Qed.

Lemma tagged_in_world {A} (m : M World A) :
  tagged log m → tagged (λ s, log (world s)) (in_world m).
Proof.
  intros Hm t s. destruct (Hm t (world s)) as (new & Hlog & Htag).
  exists new. unfold in_world, zoom. by destruct (m t (world s)).
Qed.

#[local] Hint Resolve tagged_emit tagged_in_world : tagged.

Lemma tagged_open_write (path text : str) : tagged log (open_write path text).
Proof.
  apply tagged_bind; [apply tagged_get|]. intros w.
  destruct (creatable w path); [|apply tagged_raise].
  apply tagged_bind; [by apply tagged_modify|]. intros _.
  destruct (encodable w text); [|apply tagged_raise].
  apply tagged_bind; [by apply tagged_modify|]. intros _. apply tagged_emit.
Qed.

Lemma tagged_open_read (path : option str) : tagged log (open_read path).
Proof.
  destruct path as [p|]; [|apply tagged_raise].
  apply tagged_bind; [apply tagged_get|]. intros w.
  destruct (files w !! p); auto with tagged.
Qed.

#[local] Hint Resolve tagged_open_write tagged_open_read : tagged.

Lemma tagged_modify_home (f : HomePanel → HomePanel) :
  tagged app_log (modify (set_home_panel f)).
Proof. by apply tagged_modify. Qed.

#[local] Hint Resolve tagged_modify_home : tagged.

Lemma tagged_error_label_SetLabel (l : str) :
  tagged app_log (HomePanel.error_label_SetLabel l).
Proof. unfold HomePanel.error_label_SetLabel. auto 10 with tagged. Qed.

Lemma tagged_error_label_SetForegroundColour (c : colour) :
  tagged app_log (HomePanel.error_label_SetForegroundColour c).
Proof. unfold HomePanel.error_label_SetForegroundColour. auto 10 with tagged. Qed.

Lemma tagged_self_Layout : tagged app_log HomePanel.self_Layout.
Proof. unfold HomePanel.self_Layout. auto 10 with tagged. Qed.

#[local] Hint Resolve tagged_error_label_SetLabel
  tagged_error_label_SetForegroundColour tagged_self_Layout : tagged.

Lemma tagged_notify_error (msg : str) :
  tagged app_log (HomePanel.notify_error msg).
Proof. unfold HomePanel.notify_error. auto 10 with tagged. Qed.

Lemma tagged_transcript_title : tagged app_log HomePanel.transcript_title.
Proof.
  unfold HomePanel.transcript_title.
  apply tagged_bind; [auto with tagged|]. intros h.
  apply tagged_bind; [auto with tagged|]. intros valid.
  destruct (_ && _); auto 10 with tagged.
Qed.

#[local] Hint Resolve tagged_notify_error tagged_transcript_title : tagged.

Lemma tagged_save_transcript (text : str) :
  tagged app_log (HomePanel.save_transcript text).
Proof. unfold HomePanel.save_transcript. auto 20 with tagged. Qed.

#[local] Hint Resolve tagged_save_transcript : tagged.

Lemma tagged_send_audio : tagged app_log HomePanel.send_audio.
Proof.
  unfold HomePanel.send_audio.
  apply tagged_bind; [auto with tagged|]. intros h.
  apply tagged_bind; [auto with tagged|]. intros audio_file.
  apply tagged_bind; [auto with tagged|]. intros _.
  apply tagged_bind; [auto with tagged|]. intros w.
  destruct (remote w audio_file) as [d|[e|data_text]]; auto 10 with tagged.
Qed.

(** ** The job: [send_audio] *)

Ltac run_all :=
  unfold HomePanel.send_audio, HomePanel.save_transcript, HomePanel.notify_error,
    HomePanel.clear_error, open_write, open_read,
    HomePanel.error_label_SetLabel, HomePanel.error_label_SetForegroundColour,
    HomePanel.self_Layout, in_world, zoom, bind, gets, get, modify, emit, ret,
    raise, lift_exn;
  cbn.

(** When the remote call fails, the red message is set and then replaced
    by the green confirmation of the placeholder file. *)
Lemma send_audio_failure_facts
    (t : thread) (s : State) (path content d title : str) :
  selected_file (home_panel s) = Some path →
  files (world s) !! path = Some content →
  remote (world s) content = inl d →
  result HomePanel.transcript_title t s = inr title →
  creatable (world s) (title ++ lit ".txt") = true →
  encodable (world s) (lit "test") = true →
  let s' := exec HomePanel.send_audio t s in
  let saved := lit "Saved transcript to '" ++ getcwd (world s) ++ lit "\"
               ++ title ++ lit ".txt'" in
  let label := window_id (error_label (home_panel s)) in
  result HomePanel.send_audio t s = inr tt
  ∧ shows s' green saved
  ∧ files (world s') = <[title ++ lit ".txt" := lit "test"]> (files (world s))
  ∧ log (world s')
    = log (world s)
      ++ [(t, AudioTranscribe (lit "whisper-1") path);
          (t, SetForegroundColour label red);
          (t, SetLabel label (lit "OPENAI error: " ++ add_newlines d 50));
          (t, Layout (home_id (home_panel s)));
          (t, FileWrite (title ++ lit ".txt") (lit "test"));
          (t, SetForegroundColour label green);
          (t, SetLabel label saved);
          (t, Layout (home_id (home_panel s)))].
Proof.
  unfold result, exec. rewrite transcript_title_run. cbn [fst].
  intros Hsel Hfile Hremote Htitle%(inj inr) Hc He.
  eassert (Hrun : HomePanel.send_audio t s = _).
  { run_all. rewrite Hsel. cbn. rewrite Hfile. cbn. rewrite Hremote. cbn.
    rewrite transcript_title_run. cbn. rewrite Htitle, Hc. cbn.
    rewrite He. cbn. reflexivity. }
  rewrite Hrun. unfold shows. cbn. repeat split.
  - apply insert_insert_eq.
  - by rewrite <- !app_assoc.
Qed.

(** When the upload returns and [response.data['text']] is a text that can
    be written, the text is saved and confirmed. *)
Lemma send_audio_success_facts
    (t : thread) (s : State) (path content text title : str) :
  selected_file (home_panel s) = Some path →
  files (world s) !! path = Some content →
  remote (world s) content = inr (Response (inr text)) →
  result HomePanel.transcript_title t s = inr title →
  creatable (world s) (title ++ lit ".txt") = true →
  encodable (world s) text = true →
  let s' := exec HomePanel.send_audio t s in
  let saved := lit "Saved transcript to '" ++ getcwd (world s) ++ lit "\"
               ++ title ++ lit ".txt'" in
  let label := window_id (error_label (home_panel s)) in
  result HomePanel.send_audio t s = inr tt
  ∧ shows s' green saved
  ∧ files (world s') = <[title ++ lit ".txt" := text]> (files (world s))
  ∧ log (world s')
    = log (world s)
      ++ [(t, AudioTranscribe (lit "whisper-1") path);
          (t, FileWrite (title ++ lit ".txt") text);
          (t, SetForegroundColour label green);
          (t, SetLabel label saved);
          (t, Layout (home_id (home_panel s)))].
Proof.
  unfold result, exec. rewrite transcript_title_run. cbn [fst].
  intros Hsel Hfile Hremote Htitle%(inj inr) Hc He.
  eassert (Hrun : HomePanel.send_audio t s = _).
  { run_all. rewrite Hsel. cbn. rewrite Hfile. cbn. rewrite Hremote. cbn.
    rewrite transcript_title_run. cbn. rewrite Htitle, Hc. cbn.
    rewrite He. cbn. reflexivity. }
  rewrite Hrun. unfold shows. cbn. repeat split.
  - apply insert_insert_eq.
  - by rewrite <- !app_assoc.
Qed.

(** C7.  With the key set, a file chosen and a remote call that fails with
    "rate limited", the job sets the red message "OPENAI error: rate
    limited" and writes the placeholder file, but then replaces the
    message: the label ends up green and shows the saved path. *)
Theorem failure_message_is_overwritten :
  let s1 := exec HomePanel.transcribe MainThread sample_ready in
  let s2 := exec (HomePanel.thread_run 0) MainThread s1 in
  remote (world s1) (lit "RIFF") = inl (lit "rate limited")
  ∧ add_newlines (lit "rate limited") 50 = lit "rate limited"
  ∧ log (world s2) !! 4%nat = Some (WorkerThread 0, SetForegroundColour 4 red)
  ∧ log (world s2) !! 5%nat
    = Some (WorkerThread 0, SetLabel 4 (lit "OPENAI error: rate limited"))
  ∧ files (world s2) !! lit "transcript_2023_05_17_14_03_09.txt"
    = Some (lit "test")
  ∧ Label (error_label (home_panel s2))
    = lit "Saved transcript to 'C:\work\transcript_2023_05_17_14_03_09.txt'"
  ∧ ForegroundColour (error_label (home_panel s2)) = green
  ∧ ¬ shows s2 red (lit "OPENAI error: rate limited").
Proof.
  repeat split; try (vm_compute; reflexivity).
  intros [Hlabel _]. vm_compute in Hlabel. discriminate.
Qed.

(** C9 as stated fails: the label update and the file write of a job are
    logged under the worker thread, not under the thread of the event
    loop. *)
Lemma worker_thread_updates_label_directly :
  let s1 := exec HomePanel.transcribe MainThread sample_ready in
  let s2 := exec (HomePanel.thread_run 0) MainThread s1 in
  log (world s2) !! 2%nat = Some (MainThread, ThreadStart 0)
  ∧ log (world s2) !! 5%nat
    = Some (WorkerThread 0, SetLabel 4 (lit "OPENAI error: rate limited"))
  ∧ log (world s2) !! 7%nat
    = Some (WorkerThread 0,
            FileWrite (lit "transcript_2023_05_17_14_03_09.txt") (lit "test"))
  ∧ ¬ Forall (λ e, mutates_ui_or_files e.2 = true → e.1 = MainThread)
        (log (world s2)).
Proof.
  assert (H5 : log (world (exec (HomePanel.thread_run 0) MainThread
                             (exec HomePanel.transcribe MainThread sample_ready)))
               !! 5%nat
               = Some (WorkerThread 0,
                       SetLabel 4 (lit "OPENAI error: rate limited")))
    by (vm_compute; reflexivity).
  split; [vm_compute; reflexivity|]. split; [exact H5|].
  split; [vm_compute; reflexivity|].
  intros Hall. rewrite Forall_lookup in Hall.
  specialize (Hall _ _ H5 eq_refl). discriminate.
Qed.

(** When the upload raises something else than [OpenAIError], or
    [response.data['text']] raises, the exception leaves [send_audio] right
    after the upload: nothing is written and the label is not touched. *)
Lemma send_audio_uncaught_facts
    (t : thread) (s : State) (path content : str) (r : api_return) (e : exn) :
  selected_file (home_panel s) = Some path →
  files (world s) !! path = Some content →
  remote (world s) content = inr r →
  r = Raises e ∨ r = Response (inl e) →
  HomePanel.send_audio t s
  = (inl e,
     set_world
       (set_log (λ l, l ++ [(t, AudioTranscribe (lit "whisper-1") path)])
          (world s)) s).
Proof.
  intros Hsel Hfile Hremote Hr. run_all. rewrite Hsel. cbn. rewrite Hfile. cbn.
  rewrite Hremote. by destruct Hr as [-> | ->].
Qed.

(** C9, amended.  A job runs entirely on its worker thread: every entry
    that the [n]-th thread appends to the log carries that thread.  When
    the audio file opens and the transcript file can be created, these
    entries include an update of the feedback label and the file write if
    the upload raises [OpenAIError] or returns an object on which
    [response.data['text']] is a text (and the text written can be
    encoded); if anything else is raised, the upload is the only entry.
    Nothing is handed back to the event loop. *)
Theorem job_effects_run_on_worker (n : nat) (t : thread) (s : State) :
  let s' := exec (HomePanel.thread_run n) t s in
  ∃ new,
    log (world s') = log (world s) ++ new
    ∧ Forall (λ e, e.1 = WorkerThread n) new
    ∧ ∀ path content title,
        selected_file (home_panel s) = Some path →
        files (world s) !! path = Some content →
        result HomePanel.transcript_title t s = inr title →
        creatable (world s) (title ++ lit ".txt") = true →
        let updates_and_writes :=
          Exists (λ e, ∃ l, e = (WorkerThread n,
                                 SetLabel
                                   (window_id (error_label (home_panel s))) l))
            new
          ∧ Exists (λ e, ∃ x, e = (WorkerThread n,
                                   FileWrite (title ++ lit ".txt") x)) new in
        match remote (world s) content with
        | inl d => encodable (world s) (lit "test") = true → updates_and_writes
        | inr (Response (inr text)) =>
            encodable (world s) text = true → updates_and_writes
        | inr _ =>
            new = [(WorkerThread n, AudioTranscribe (lit "whisper-1") path)]
        end.
Proof.
  cbn zeta.
  destruct (tagged_run_as app_log (WorkerThread n) _ tagged_send_audio t s)
    as (new & Hlog & Htag).
  exists new. split; [exact Hlog|]. split; [exact Htag|].
  intros path content title Hsel Hfile Htitle Hc.
  assert (Htitle' : result HomePanel.transcript_title (WorkerThread n) s
                    = inr title).
  { unfold result in *. by rewrite transcript_title_run in *. }
  unfold HomePanel.thread_run, run_as, exec in *. cbn beta in Hlog.
  destruct (remote (world s) content) as [d|[e|[e|text]]] eqn:Hremote.
  - intros He.
    destruct (send_audio_failure_facts (WorkerThread n) s path content d title
                Hsel Hfile Hremote Htitle' Hc He) as (_ & _ & _ & Hlog').
    unfold exec in Hlog'. rewrite Hlog' in Hlog.
    apply app_inv_head in Hlog. subst new. split.
    + do 2 apply Exists_cons_tl. apply Exists_cons_hd. eauto.
    + do 4 apply Exists_cons_tl. apply Exists_cons_hd. eauto.
  - rewrite (send_audio_uncaught_facts (WorkerThread n) s path content
               (Raises e) e Hsel Hfile Hremote) in Hlog by (by left).
    cbn in Hlog. by apply app_inv_head in Hlog.
  - rewrite (send_audio_uncaught_facts (WorkerThread n) s path content
               (Response (inl e)) e Hsel Hfile Hremote) in Hlog by (by right).
    cbn in Hlog. by apply app_inv_head in Hlog.
  - intros He.
    destruct (send_audio_success_facts (WorkerThread n) s path content text title
                Hsel Hfile Hremote Htitle' Hc He) as (_ & _ & _ & Hlog').
    unfold exec in Hlog'. rewrite Hlog' in Hlog.
    apply app_inv_head in Hlog. subst new. split.
    + do 3 apply Exists_cons_tl. apply Exists_cons_hd. eauto.
    + do 1 apply Exists_cons_tl. apply Exists_cons_hd. eauto.
Qed.

Lemma job_effects_run_on_worker_witness :
  selected_file (home_panel sample_ready) = Some (lit "talk.mp3")
  ∧ files (world sample_ready) !! lit "talk.mp3" = Some (lit "RIFF")
  ∧ creatable (world sample_ready) (lit "transcript_2023_05_17_14_03_09.txt")
    = true
  ∧ encodable (world sample_ready) (lit "test") = true
  ∧ (∃ new,
       log (world (exec (HomePanel.thread_run 0) MainThread sample_ready))
       = log (world sample_ready) ++ new
       ∧ Forall (λ e, e.1 = WorkerThread 0) new
       ∧ Exists (λ e, ∃ l, e = (WorkerThread 0, SetLabel 4 l)) new
       ∧ Exists (λ e, ∃ x, e = (WorkerThread 0,
                                FileWrite
                                  (lit "transcript_2023_05_17_14_03_09.txt") x))
           new)
  ∧ log (world (exec (HomePanel.thread_run 0) MainThread sample_without_data))
    = log (world sample_without_data)
      ++ [(WorkerThread 0,
           AudioTranscribe (lit "whisper-1") (lit "talk.mp3"))].
Proof.
  assert (H1 : selected_file (home_panel sample_ready) = Some (lit "talk.mp3"))
    by reflexivity.
  assert (H2 : files (world sample_ready) !! lit "talk.mp3" = Some (lit "RIFF"))
    by (vm_compute; reflexivity).
  assert (H3 : result HomePanel.transcript_title MainThread sample_ready
               = inr (lit "transcript_2023_05_17_14_03_09"))
    by (vm_compute; reflexivity).
  assert (H4 : creatable (world sample_ready)
                 (lit "transcript_2023_05_17_14_03_09" ++ lit ".txt") = true)
    by (vm_compute; reflexivity).
  assert (H5 : encodable (world sample_ready) (lit "test") = true)
    by (vm_compute; reflexivity).
  assert (G1 : selected_file (home_panel sample_without_data)
               = Some (lit "talk.mp3")) by reflexivity.
  assert (G2 : files (world sample_without_data) !! lit "talk.mp3"
               = Some (lit "RIFF")) by (vm_compute; reflexivity).
  assert (G3 : result HomePanel.transcript_title MainThread sample_without_data
               = inr (lit "transcript_2023_05_17_14_03_09"))
    by (vm_compute; reflexivity).
  assert (G4 : creatable (world sample_without_data)
                 (lit "transcript_2023_05_17_14_03_09" ++ lit ".txt") = true)
    by (vm_compute; reflexivity).
  split; [exact H1|split; [exact H2|split; [exact H4|split; [exact H5|]]]].
  split.
  - destruct (job_effects_run_on_worker 0 MainThread sample_ready)
      as (new & Hlog & Htag & Hex).
    exists new. split; [exact Hlog|split; [exact Htag|]].
    exact (Hex _ _ _ H1 H2 H3 H4 H5).
  - destruct (job_effects_run_on_worker 0 MainThread sample_without_data)
      as (new & Hlog & _ & Hex).
    rewrite Hlog. f_equal. exact (Hex _ _ _ G1 G2 G3 G4).
Defined.

(** ** More on [add_newlines] *)

Lemma split_from_nil_iff (s : str) : ∀ word : str,
  split_from word s = [] ↔ word = [] ∧ Forall (λ c, isspace c = true) s.
Proof.
  induction s as [|c s IH]; intros word; simpl.
  - destruct word; split; try done. by intros [? _].
  - destruct (isspace c) eqn:Hc.
    + destruct word as [|a word].
      * rewrite IH. split; intros [? H]; split; try done.
        -- by constructor.
        -- by inversion H.
      * split; [done|]. by intros [? _].
    + rewrite IH. split.
      * intros [H _]. by destruct word.
      * intros [_ H]. inversion H; congruence.
Qed.

Lemma add_newlines_lines_ext (s1 s2 : str) (line_length : Z) :
  split s1 = split s2 →
  add_newlines_lines s1 line_length = add_newlines_lines s2 line_length.
Proof. unfold add_newlines_lines. by intros ->. Qed.

(** X1.  Wrapping keeps the words: the words of the output, as [split]
    sees them, are the words of the input in the same order, for every
    input and every line length. *)
Theorem add_newlines_keeps_words (s : str) (line_length : Z) :
  split (add_newlines s line_length) = split s
  ∧ Forall is_word (split (add_newlines s line_length)).
Proof.
  split; [apply add_newlines_words|].
  rewrite add_newlines_words. apply split_words.
Qed.

(** X3.  Wrapping is idempotent: wrapping the output again at the same
    length gives the same text. *)
Theorem add_newlines_idempotent (s : str) (line_length : Z) :
  add_newlines (add_newlines s line_length) line_length
  = add_newlines s line_length.
Proof.
  unfold add_newlines at 1 3. f_equal.
  apply add_newlines_lines_ext, add_newlines_words.
Qed.

(** X4.  The output is empty exactly when the input holds nothing but
    white space (the empty string included). *)
Theorem add_newlines_empty_iff_blank (s : str) (line_length : Z) :
  add_newlines s line_length = [] ↔ Forall (λ c, isspace c = true) s.
Proof.
  split.
  - intros H. pose proof (add_newlines_words line_length s) as Hw.
    rewrite H in Hw. symmetry in Hw. by apply split_from_nil_iff in Hw as [_ ?].
  - intros H. assert (Hs : split s = []) by by apply split_from_nil_iff.
    unfold add_newlines, add_newlines_lines. by rewrite Hs.
Qed.

Lemma join_snoc (sep : str) (l : list str) (x : str) :
  l ≠ [] → join sep (l ++ [x]) = join sep l ++ sep ++ x.
Proof.
  induction l as [|a l IH]; [done|]. intros _.
  destruct l as [|b l]; [done|].
  change (join sep ((a :: b :: l) ++ [x]))
    with (a ++ sep ++ join sep ((b :: l) ++ [x])).
  rewrite IH by done.
  change (join sep (a :: b :: l)) with (a ++ sep ++ join sep (b :: l)).
  by rewrite <- !app_assoc.
Qed.

Lemma truthy_join_words (sep : str) (g : list str) :
  Forall is_word g → truthy (join sep g) = bool_decide (g ≠ []).
Proof.
  intros Hg. destruct g as [|a g]; [done|].
  inversion Hg as [|? ? [Ha _] _]; subst.
  destruct a as [|c a]; [done|]. by destruct g.
Qed.

(** One step of the loop on a line that is a group of words. *)
Lemma add_newlines_step_group (line_length : Z) (lines : list str)
    (g : list str) (w : str) :
  Forall is_word g →
  add_newlines_step line_length (lines, join (lit " ") g) w
  = if (len (join (lit " ") g) + len w <=? line_length)%Z
    then (lines, join (lit " ") (g ++ [w]))
    else (lines ++ [join (lit " ") g], join (lit " ") [w]).
Proof.
  intros Hg. unfold add_newlines_step.
  destruct (_ <=? _)%Z; [|done]. f_equal.
  rewrite truthy_join_words by done.
  destruct g as [|a g]; [done|].
  rewrite bool_decide_eq_true_2 by done. by rewrite join_snoc.
Qed.

Lemma add_newlines_loop_groups (line_length : Z) (ws : list str) :
  ∀ (groups : list (list str)) (g : list str),
  Forall is_word ws → Forall is_word g →
  ∃ groups' g',
    foldl (add_newlines_step line_length)
      (join (lit " ") <$> groups, join (lit " ") g) ws
    = (join (lit " ") <$> groups', join (lit " ") g')
    ∧ concat groups' ++ g' = concat groups ++ g ++ ws
    ∧ Forall is_word g'.
Proof.
  induction ws as [|w ws IH]; intros groups g Hws Hg; cbn [foldl].
  - exists groups, g. by rewrite app_nil_r.
  - inversion Hws as [|? ? Hw Hws']; subst.
    rewrite add_newlines_step_group by done.
    destruct (_ <=? _)%Z.
    + destruct (IH groups (g ++ [w]) Hws') as (groups' & g' & Hrun & Hcat & Hg').
      { apply Forall_app. split; [done|]. by constructor. }
      exists groups', g'. split; [done|]. split; [|done].
      by rewrite Hcat, <- !app_assoc.
    + destruct (IH (groups ++ [g]) [w] Hws') as (groups' & g' & Hrun & Hcat & Hg').
      { by constructor. }
      exists groups', g'. rewrite fmap_app in Hrun. split; [done|].
      split; [|done]. rewrite Hcat, concat_app. simpl.
      by rewrite app_nil_r, <- !app_assoc.
Qed.

(** X9.  Every line of the output is a group of consecutive words of the
    input joined by single spaces, and the groups, in order, make up all
    the words: lines have no space at either end and no double space. *)
Theorem add_newlines_lines_are_word_groups (s : str) (line_length : Z) :
  ∃ groups : list (list str),
    add_newlines_lines s line_length = join (lit " ") <$> groups
    ∧ concat groups = split s.
Proof.
  unfold add_newlines_lines.
  destruct (add_newlines_loop_groups line_length (split s) [] [])
    as (groups & g & Hrun & Hcat & Hg); [apply split_words|constructor|].
  change (join (lit " ") <$> [], join (lit " ") []) with (@nil str, @nil N) in Hrun.
  rewrite Hrun. rewrite truthy_join_words by done.
  destruct g as [|a g].
  - exists groups. split; [done|]. by rewrite app_nil_r in Hcat.
  - exists (groups ++ [a :: g]). rewrite bool_decide_eq_true_2 by done.
    split; [by rewrite fmap_app|]. rewrite concat_app. simpl.
    by rewrite app_nil_r.
Qed.

Lemma add_newlines_loop_nonempty (line_length : Z) (ws : list str) :
  ∀ (lines : list str) (cl : str),
  Forall is_word ws → cl ≠ [] →
  ∃ more cl',
    foldl (add_newlines_step line_length) (lines, cl) ws = (lines ++ more, cl')
    ∧ Forall (λ line, line ≠ []) more ∧ cl' ≠ [].
Proof.
  induction ws as [|w ws IH]; intros lines cl Hws Hcl; cbn [foldl].
  - exists [], cl. by rewrite app_nil_r.
  - inversion Hws as [|? ? Hw Hws']; subst.
    unfold add_newlines_step at 2. destruct (_ <=? _)%Z.
    + apply IH; [done|]. by destruct cl.
    + destruct (IH (lines ++ [cl]) w Hws') as (more & cl' & Hrun & Hmore & Hcl').
      { by destruct Hw. }
      exists (cl :: more), cl'. rewrite Hrun, <- app_assoc.
      split; [done|]. split; [by constructor|done].
Qed.

Lemma truthy_nonempty (s : str) : s ≠ [] → truthy s = true.
Proof. by destruct s. Qed.

(** X5.  When the first word is longer than the line length, the list of
    lines starts with an empty line, the lines after it are not empty, and
    the output text starts with a newline. *)
Theorem add_newlines_leading_empty_line
    (s w : str) (ws : list str) (line_length : Z) :
  split s = w :: ws → (line_length < len w)%Z →
  ∃ rest,
    add_newlines_lines s line_length = [] :: rest
    ∧ rest ≠ [] ∧ Forall (λ line, line ≠ []) rest
    ∧ add_newlines s line_length = 0x0A%N :: join [0x0A%N] rest.
Proof.
  intros Hs Hw. pose proof (split_words s) as Hws. rewrite Hs in Hws.
  inversion Hws as [|? ? Hw1 Hws']; subst.
  destruct (add_newlines_loop_nonempty line_length ws [[]] w Hws')
    as (more & cl' & Hrun & Hmore & Hcl'); [by destruct Hw1|].
  assert (Hlines : add_newlines_lines s line_length = [] :: more ++ [cl']).
  { unfold add_newlines_lines. rewrite Hs. cbn [foldl].
    unfold add_newlines_step at 2.
    replace (len [] + len w <=? line_length)%Z with false
      by (symmetry; apply Z.leb_gt; unfold len in *; simpl; lia).
    cbn [app]. by rewrite Hrun, truthy_nonempty. }
  exists (more ++ [cl']). split; [done|]. split; [by destruct more|].
  split; [apply Forall_app; split; [done|by constructor]|].
  unfold add_newlines. rewrite Hlines.
  destruct (more ++ [cl']) as [|x l] eqn:Heq; [by destruct more|reflexivity].
Qed.

(** X6.  When the first word fits in the line length, there is at least
    one line and no line is empty. *)
Theorem add_newlines_no_empty_line
    (s w : str) (ws : list str) (line_length : Z) :
  split s = w :: ws → (len w ≤ line_length)%Z →
  add_newlines_lines s line_length ≠ []
  ∧ Forall (λ line, line ≠ []) (add_newlines_lines s line_length).
Proof.
  intros Hs Hw. pose proof (split_words s) as Hws. rewrite Hs in Hws.
  inversion Hws as [|? ? Hw1 Hws']; subst.
  destruct (add_newlines_loop_nonempty line_length ws [] w Hws')
    as (more & cl' & Hrun & Hmore & Hcl'); [by destruct Hw1|].
  assert (Hlines : add_newlines_lines s line_length = more ++ [cl']).
  { unfold add_newlines_lines. rewrite Hs. cbn [foldl].
    unfold add_newlines_step at 2.
    replace (len [] + len w <=? line_length)%Z with true
      by (symmetry; apply Z.leb_le; unfold len in *; simpl; lia).
    cbn [truthy app]. by rewrite Hrun, truthy_nonempty. }
  rewrite Hlines. split; [by destruct more|].
  apply Forall_app; split; [done|by constructor].
Qed.

Lemma add_newlines_loop_long (line_length : Z) (ws : list str) :
  ∀ (lines : list str) (cl w : str),
  Forall (λ w, (line_length < len w)%Z) (w :: ws) →
  ∃ lines' cl',
    foldl (add_newlines_step line_length) (lines, cl) (w :: ws) = (lines', cl')
    ∧ lines' ++ [cl'] = lines ++ cl :: w :: ws.
Proof.
  induction ws as [|w' ws IH]; intros lines cl w Hlong;
    inversion Hlong as [|? ? Hw Hlong']; subst.
  - cbn [foldl]. unfold add_newlines_step.
    replace (len cl + len w <=? line_length)%Z with false
      by (symmetry; apply Z.leb_gt; unfold len in *; lia).
    eexists _, _. split; [done|]. by rewrite <- app_assoc.
  - change (foldl (add_newlines_step line_length) (lines, cl) (w :: w' :: ws))
      with (foldl (add_newlines_step line_length)
              (add_newlines_step line_length (lines, cl) w) (w' :: ws)).
    unfold add_newlines_step at 2.
    replace (len cl + len w <=? line_length)%Z with false
      by (symmetry; apply Z.leb_gt; unfold len in *; lia).
    destruct (IH (lines ++ [cl]) w w' Hlong') as (lines' & cl' & Hrun & Heq).
    exists lines', cl'. split; [done|]. by rewrite Heq, <- app_assoc.
Qed.

(** X7.  When every word is longer than the line length (as with a
    line length of zero or less), the lines are an empty line followed by
    the words, one per line. *)
Theorem add_newlines_one_word_per_line (s : str) (line_length : Z) :
  split s ≠ [] → Forall (λ w, (line_length < len w)%Z) (split s) →
  add_newlines_lines s line_length = [] :: split s
  ∧ add_newlines s line_length = 0x0A%N :: join [0x0A%N] (split s).
Proof.
  intros Hne Hlong. pose proof (split_words s) as Hws.
  unfold add_newlines, add_newlines_lines.
  destruct (split s) as [|w ws] eqn:Hs; [done|].
  destruct (add_newlines_loop_long line_length ws [] [] w Hlong)
    as (lines' & cl' & Hrun & Heq).
  rewrite Hrun. assert (cl' ≠ []) as Hcl'.
  { assert (Hlast : last (lines' ++ [cl']) = Some cl') by apply last_snoc.
    rewrite Heq in Hlast. change (last (w :: ws) = Some cl') in Hlast.
    apply last_Some in Hlast as [l' Hl'].
    assert (cl' ∈ w :: ws) as Hin
      by (rewrite Hl'; apply elem_of_app; right; by left).
    rewrite Forall_forall in Hws. by destruct (Hws _ Hin). }
  rewrite truthy_nonempty, Heq by done. done.
Qed.

Lemma join_length_snoc (sep : str) (l : list str) (x : str) :
  (len (join sep l) + len x ≤ len (join sep (l ++ [x])))%Z.
Proof.
  destruct l as [|a l].
  - unfold len. simpl. lia.
  - rewrite join_snoc by done. unfold len. rewrite !length_app. lia.
Qed.

Lemma join_length_app (sep : str) (l1 l2 : list str) :
  (len (join sep l1) ≤ len (join sep (l1 ++ l2)))%Z.
Proof.
  revert l1. induction l2 as [|x l2 IH]; intros l1.
  - by rewrite app_nil_r.
  - change (l1 ++ x :: l2) with (l1 ++ [x] ++ l2). rewrite app_assoc.
    pose proof (IH (l1 ++ [x])). pose proof (join_length_snoc sep l1 x).
    unfold len in *. lia.
Qed.

Lemma add_newlines_loop_fits (line_length : Z) (ws : list str) :
  ∀ g : list str,
  Forall is_word g → Forall is_word ws →
  (len (join (lit " ") (g ++ ws)) ≤ line_length)%Z →
  foldl (add_newlines_step line_length) ([], join (lit " ") g) ws
  = ([], join (lit " ") (g ++ ws)).
Proof.
  induction ws as [|w ws IH]; intros g Hg Hws Hfit; cbn [foldl].
  - by rewrite app_nil_r.
  - inversion Hws as [|? ? Hw Hws']; subst.
    rewrite add_newlines_step_group by done.
    change (g ++ w :: ws) with (g ++ [w] ++ ws) in *. rewrite app_assoc in *.
    replace (len (join (lit " ") g) + len w <=? line_length)%Z with true.
    + apply IH; [|done..]. apply Forall_app. split; [done|]. by constructor.
    + symmetry. apply Z.leb_le.
      pose proof (join_length_snoc (lit " ") g w).
      pose proof (join_length_app (lit " ") (g ++ [w]) ws). lia.
Qed.

(** X8.  When the words joined by single spaces fit in the line length,
    the output is that one line: white space is normalised and nothing
    else changes. *)
Theorem add_newlines_single_line (s : str) (line_length : Z) :
  (len (join (lit " ") (split s)) ≤ line_length)%Z →
  add_newlines s line_length = join (lit " ") (split s).
Proof.
  intros Hfit. unfold add_newlines, add_newlines_lines.
  pose proof (add_newlines_loop_fits line_length (split s) []
                (List.Forall_nil _) (split_words s) Hfit) as Hrun.
  change (join (lit " ") []) with (@nil N) in Hrun. rewrite Hrun. cbn [app].
  by destruct (join (lit " ") (split s)).
Qed.

(** ** More on the switcher *)

(** X10.  [Show] calls [Show()] or [Hide()] once on every panel of the
    list, in list order, and then lays the parent out once: these are
    exactly the entries it adds to the log. *)
Theorem Show_calls_each_panel_once
    (self : PanelsSwitcher) (panel : oid) (t : thread) (w : World) :
  log (exec (PanelsSwitcher.Show self panel) t w)
  = log w
    ++ ((λ p, (t, if decide (p = panel) then WindowShow p else WindowHide p))
          <$> panels self)
    ++ [(t, Layout (parent self))].
Proof. unfold exec. by rewrite Show_exact. Qed.

(** X11.  [Show] changes nothing but the flags of the managed windows
    and the log: other windows keep their flags, the flagged windows are
    the old ones and the panels, and the environment, the API key, the
    files and the thread count stay as they were. *)
Theorem Show_touches_only_managed_windows
    (self : PanelsSwitcher) (panel : oid) (t : thread) (w : World) :
  let w' := exec (PanelsSwitcher.Show self panel) t w in
  (∀ q, q ∉ panels self → shown w' !! q = shown w !! q)
  ∧ dom (shown w') = dom (shown w) ∪ list_to_set (panels self)
  ∧ environ w' = environ w ∧ openai_api_key w' = openai_api_key w
  ∧ files w' = files w ∧ threads w' = threads w.
Proof.
  cbn zeta. unfold exec.
  destruct (Show_spec self panel t w) as (w1 & Hrun & Hshown).
  rewrite Show_exact in Hrun. rewrite Show_exact. cbn [snd].
  injection Hrun as <-. repeat split.
  - intros q Hq. by rewrite Hshown, decide_False.
  - apply set_eq. intros q. rewrite elem_of_union, !elem_of_dom, Hshown.
    rewrite elem_of_list_to_set.
    destruct (decide (q ∈ panels self)); [|tauto]. split; eauto.
Qed.

(** X12.  [add_panel] appends the panel, adds it to the sizer and leaves
    every visibility flag as it was (the new panel is not hidden); a
    following [Show v], for [v] in the extended list, leaves [v] as the
    one shown panel of the extended list. *)
Theorem add_panel_then_Show
    (self : PanelsSwitcher) (panel v : oid) (t : thread) (w : World) :
  v ∈ panels self ++ [panel] →
  let self' := {| parent := parent self; panels := panels self ++ [panel] |} in
  let w1 := exec (PanelsSwitcher.add_panel self panel) t w in
  result (PanelsSwitcher.add_panel self panel) t w = inr self'
  ∧ shown w1 = shown w
  ∧ log w1 = log w ++ [(t, SizerAdd panel)]
  ∧ Forall (λ p, shown (exec (PanelsSwitcher.Show self' v) t w1) !! p
                 = Some (bool_decide (p = v)))
      (panels self ++ [panel]).
Proof.
  intros Hv. cbn zeta. repeat split.
  apply Forall_forall. intros p Hp. unfold exec at 1.
  destruct (Show_spec {| parent := parent self; panels := panels self ++ [panel] |}
              v t (exec (PanelsSwitcher.add_panel self panel) t w))
    as (w2 & Hrun & Hshown).
  rewrite Hrun. cbn [snd]. rewrite Hshown. cbn [panels]. by rewrite decide_True.
Qed.

Lemma for_each_emit_exact (f : oid → call) (t : thread) (l : list oid) :
  ∀ w : World,
  for_each l (λ p, emit (f p)) t w
  = (inr tt, set_log (λ lg, lg ++ ((λ p, (t, f p)) <$> l)) w).
Proof.
  induction l as [|x l IH]; intros w.
  - cbn. unfold set_log. rewrite app_nil_r. by destruct w.
  - cbn [for_each]. unfold bind at 1. cbn [emit]. rewrite IH.
    unfold set_log. cbn. by rewrite <- app_assoc.
Qed.

(** X13.  The effects of [__init__], in order: the sizer is set on the
    parent, every panel is added once in list order, then the first panel
    is shown, the others hidden and the parent laid out.  On an empty list
    the sizer is already set on the parent when [panels[0]] raises, and no
    flag has changed. *)
Theorem init_adds_each_panel_once (container : oid) (l : list oid)
    (t : thread) (w : World) :
  let w' := exec (PanelsSwitcher.__init__ container l) t w in
  match l with
  | [] => log w' = log w ++ [(t, SetSizer container)] ∧ shown w' = shown w
  | first :: _ =>
      log w'
      = log w ++ [(t, SetSizer container)]
        ++ ((λ p, (t, SizerAdd p)) <$> l)
        ++ ((λ p, (t, if decide (p = first) then WindowShow p else WindowHide p))
              <$> l)
        ++ [(t, Layout container)]
  end.
Proof.
  cbn zeta. unfold exec, PanelsSwitcher.__init__.
  destruct l as [|first rest].
  - done.
  - unfold bind at 1. cbn [emit]. unfold bind at 1. rewrite for_each_emit_exact.
    unfold bind at 1. cbn [ret]. unfold bind at 1. rewrite Show_exact.
    unfold with_ui, set_log, set_shown. cbn. by rewrite <- !app_assoc.
Qed.

(** ** More on the home panel *)

(** X14.  [select_audio_file] never raises and clears the feedback text
    whatever the dialog answers, keeping its colour and the title.  A
    confirmed dialog stores the path and displays the file name; a
    cancelled one keeps the previous selection and display. *)
Theorem select_audio_file_outcomes
    (t : thread) (s : State) (dlg : option (str * str)) :
  let s' := exec (HomePanel.select_audio_file dlg) t s in
  result (HomePanel.select_audio_file dlg) t s = inr tt
  ∧ Label (error_label (home_panel s')) = lit ""
  ∧ ForegroundColour (error_label (home_panel s'))
    = ForegroundColour (error_label (home_panel s))
  ∧ title_entry (home_panel s') = title_entry (home_panel s)
  ∧ match dlg with
    | Some (path, filename) =>
        selected_file (home_panel s') = Some path
        ∧ Label (file_display (home_panel s')) = filename
    | None =>
        selected_file (home_panel s') = selected_file (home_panel s)
        ∧ file_display (home_panel s') = file_display (home_panel s)
    end.
Proof.
  unfold HomePanel.select_audio_file, HomePanel.file_display_SetLabel.
  run_panel. by destruct dlg as [[path filename]|].
Qed.



Lemma save_transcript_run_refused (t : thread) (s : State) (text title : str) :
  result HomePanel.transcript_title t s = inr title →
  creatable (world s) (title ++ lit ".txt") = false →
  HomePanel.save_transcript text t s = (inl (OSError (title ++ lit ".txt")), s).
Proof.
  unfold result. rewrite transcript_title_run. cbn [fst].
  intros Htitle%(inj inr) Hc.
  unfold HomePanel.save_transcript. unfold bind at 1.
  rewrite transcript_title_run, Htitle.
  unfold open_write, in_world, zoom, bind, get, raise. cbn. rewrite Hc.
  by destruct s.
Qed.


(** X16.  When the file cannot be created, [save_transcript] raises the
    [OSError] of [open] and changes nothing: no file, no label, no log
    entry. *)
Theorem save_transcript_refused_is_silent
    (t : thread) (s : State) (text title : str) :
  result HomePanel.transcript_title t s = inr title →
  creatable (world s) (title ++ lit ".txt") = false →
  result (HomePanel.save_transcript text) t s
  = inl (OSError (title ++ lit ".txt"))
  ∧ exec (HomePanel.save_transcript text) t s = s.
Proof.
  intros Htitle Hc. unfold result, exec.
  by rewrite (save_transcript_run_refused t s text title Htitle Hc).
Qed.



Lemma send_audio_run_unreadable (t : thread) (s : State) :
  (selected_file (home_panel s) ≫= λ p, files (world s) !! p) = None →
  HomePanel.send_audio t s
  = (inl (match selected_file (home_panel s) with
          | Some p => FileNotFoundError p
          | None => TypeError
          end), s).
Proof.
  intros Hnone. run_all.
  destruct (selected_file (home_panel s)) as [p|]; cbn in *.
  - rewrite Hnone. by destruct s.
  - by destruct s.
Qed.

(** X18.  When no file is selected or the selected file is not on disk,
    [send_audio] raises ([TypeError], or [FileNotFoundError] with the
    path) before any upload and changes nothing: the user gets no
    feedback. *)
Theorem send_audio_unreadable_file_is_silent (t : thread) (s : State) :
  (selected_file (home_panel s) ≫= λ p, files (world s) !! p) = None →
  result HomePanel.send_audio t s
  = inl (match selected_file (home_panel s) with
         | Some p => FileNotFoundError p
         | None => TypeError
         end)
  ∧ exec HomePanel.send_audio t s = s.
Proof.
  intros Hnone. unfold result, exec.
  by rewrite (send_audio_run_unreadable t s Hnone).
Qed.

(** X19.  When the upload fails and the placeholder file cannot be
    created, [send_audio] raises the [OSError] of [open], no file changes,
    and the label keeps the red failure message. *)
Theorem send_audio_failure_shows_red_when_save_refused
    (t : thread) (s : State) (path content d title : str) :
  selected_file (home_panel s) = Some path →
  files (world s) !! path = Some content →
  remote (world s) content = inl d →
  result HomePanel.transcript_title t s = inr title →
  creatable (world s) (title ++ lit ".txt") = false →
  let s' := exec HomePanel.send_audio t s in
  result HomePanel.send_audio t s = inl (OSError (title ++ lit ".txt"))
  ∧ shows s' red (lit "OPENAI error: " ++ add_newlines d 50)
  ∧ files (world s') = files (world s).
Proof.
  unfold result, exec. rewrite transcript_title_run. cbn [fst].
  intros Hsel Hfile Hremote Htitle%(inj inr) Hc.
  eassert (Hrun : HomePanel.send_audio t s = _).
  { run_all. rewrite Hsel. cbn. rewrite Hfile. cbn. rewrite Hremote. cbn.
    rewrite transcript_title_run. cbn. rewrite Htitle, Hc. cbn. reflexivity. }
  rewrite Hrun. unfold shows. by cbn.
Qed.

(** X20.  The words of the failure message are "OPENAI", "error:" and
    then the words of the error description, in order. *)
Theorem openai_error_message_words (d : str) :
  split (lit "OPENAI error: " ++ add_newlines d 50)
  = [lit "OPENAI"; lit "error:"] ++ split d.
Proof.
  change (lit "OPENAI error: ") with (lit "OPENAI error:" ++ [32%N]).
  rewrite <- app_assoc. cbn [app].
  rewrite split_app_sep by done. by rewrite add_newlines_words.
Qed.

Lemma transcribe_start_facts (t : thread) (s : State) (path key : str) :
  selected_file (home_panel s) = Some path → path ≠ [] →
  environ (world s) !! lit "OPENAI_API_KEY" = Some key → key ≠ [] →
  let s' := exec HomePanel.transcribe t s in
  result HomePanel.transcribe t s = inr tt
  ∧ threads (world s') = S (threads (world s))
  ∧ selected_file (home_panel s') = Some path
  ∧ environ (world s') = environ (world s)
  ∧ files (world s') = files (world s)
  ∧ last (log (world s')) = Some (t, ThreadStart (threads (world s))).
Proof.
  intros Hsel Hpath Hkey Hk. run_panel. rewrite Hsel.
  destruct path as [|c path]; [done|]. cbn. rewrite Hkey.
  destruct key as [|k key]; [done|]. cbn. repeat split; try done.
  apply last_snoc.
Qed.

(** X21.  Nothing stops a second job: with a file selected and a key in
    the environment, [n] clicks on transcribe start [n] threads, numbered
    consecutively, and change no file. *)
Theorem transcribe_starts_a_thread_per_click
    (n : nat) (t : thread) (s : State) (path key : str) :
  selected_file (home_panel s) = Some path → path ≠ [] →
  environ (world s) !! lit "OPENAI_API_KEY" = Some key → key ≠ [] →
  let s' := Nat.iter n (exec HomePanel.transcribe t) s in
  threads (world s') = threads (world s) + n
  ∧ files (world s') = files (world s)
  ∧ (0 < n → last (log (world s'))
             = Some (t, ThreadStart (threads (world s) + n - 1))).
Proof.
  intros Hsel Hpath Hkey Hk. cbn zeta.
  assert (Hinv : ∀ n,
    let s' := Nat.iter n (exec HomePanel.transcribe t) s in
    selected_file (home_panel s') = Some path
    ∧ environ (world s') = environ (world s)
    ∧ threads (world s') = threads (world s) + n
    ∧ files (world s') = files (world s)).
  { clear n. induction n as [|n (IH1 & IH2 & IH3 & IH4)]; cbn zeta.
    - by rewrite Nat.add_0_r.
    - rewrite Nat.iter_succ. rewrite <- IH2 in Hkey.
      destruct (transcribe_start_facts t _ path key IH1 Hpath Hkey Hk)
        as (_ & H1 & H2 & H3 & H4 & _).
      rewrite H1, H2, H3, H4, IH3. repeat split; try done; lia. }
  destruct (Hinv n) as (_ & _ & H3 & H4). split; [done|]. split; [done|].
  intros Hn. destruct n as [|n]; [lia|].
  destruct (Hinv n) as (IH1 & IH2 & IH3 & _). rewrite Nat.iter_succ.
  rewrite <- IH2 in Hkey.
  destruct (transcribe_start_facts t _ path key IH1 Hpath Hkey Hk)
    as (_ & _ & _ & _ & _ & Hlast).
  rewrite Hlast, IH3. do 3 f_equal. lia.
Qed.

(** ** Switching between the panels *)

Lemma show_settings_run (t : thread) (s : State) :
  ∃ sh lg,
    HomePanel.show_settings t s
    = (inr tt,
       set_world (with_ui sh lg (world s))
         (set_home_panel (set_error_label (set_Label (lit ""))) s))
    ∧ ∀ p, sh !! p
           = if decide (p ∈ panels (sizer s))
             then Some (bool_decide (p = settings_id (settings_panel s)))
             else shown (world s) !! p.
Proof.
  unfold HomePanel.show_settings. run_panel.
  match goal with
  | |- context [PanelsSwitcher.Show ?sz ?v ?t ?w] =>
      destruct (Show_frame sz v t w) as (sh & lg & Hrun);
      destruct (Show_spec sz v t w) as (w' & Hrun' & Hshown)
  end.
  rewrite Hrun in Hrun'. injection Hrun' as <-.
  exists sh, lg. rewrite Hrun. split; [done|]. exact Hshown.
Qed.

Lemma return_to_home_run (t : thread) (s : State) :
  ∃ sh lg,
    SettingsPanel.return_to_home t s
    = (inr tt, set_world (with_ui sh lg (world s)) s)
    ∧ ∀ p, sh !! p
           = if decide (p ∈ panels (sizer s))
             then Some (bool_decide (p = home_id (home_panel s)))
             else shown (world s) !! p.
Proof.
  unfold SettingsPanel.return_to_home, in_world, zoom, bind, get. cbn.
  destruct (Show_frame (sizer s) (home_id (home_panel s)) t (world s))
    as (sh & lg & Hrun).
  destruct (Show_spec (sizer s) (home_id (home_panel s)) t (world s))
    as (w' & Hrun' & Hshown).
  rewrite Hrun in Hrun'. injection Hrun' as <-.
  exists sh, lg. rewrite Hrun. split; [done|]. exact Hshown.
Qed.

(** X22.  [show_settings] shows the settings panel, hides every other
    managed panel and clears the feedback text; [return_to_home] after it
    shows the home panel and hides the others.  Neither raises, and going
    there and back changes neither the environment, the API key, the text
    typed in the key entry, the selected file nor the title. *)
Theorem settings_and_back (t : thread) (s : State) :
  let s1 := exec HomePanel.show_settings t s in
  let s2 := exec SettingsPanel.return_to_home t s1 in
  result HomePanel.show_settings t s = inr tt
  ∧ result SettingsPanel.return_to_home t s1 = inr tt
  ∧ Forall (λ p, shown (world s1) !! p
                 = Some (bool_decide (p = settings_id (settings_panel s))))
      (panels (sizer s))
  ∧ Forall (λ p, shown (world s2) !! p
                 = Some (bool_decide (p = home_id (home_panel s))))
      (panels (sizer s))
  ∧ Label (error_label (home_panel s1)) = lit ""
  ∧ environ (world s2) = environ (world s)
  ∧ openai_api_key (world s2) = openai_api_key (world s)
  ∧ api_key_entry (settings_panel s2) = api_key_entry (settings_panel s)
  ∧ selected_file (home_panel s2) = selected_file (home_panel s)
  ∧ title_entry (home_panel s2) = title_entry (home_panel s).
Proof.
  cbn zeta. unfold result, exec.
  destruct (show_settings_run t s) as (sh1 & lg1 & Hrun1 & Hsh1).
  rewrite Hrun1. cbn [fst snd].
  destruct (return_to_home_run t
              (set_world (with_ui sh1 lg1 (world s))
                 (set_home_panel (set_error_label (set_Label (lit ""))) s)))
    as (sh2 & lg2 & Hrun2 & Hsh2).
  rewrite Hrun2. cbn. repeat split.
  - apply Forall_forall. intros p Hp. by rewrite Hsh1, decide_True.
  - apply Forall_forall. intros p Hp. rewrite Hsh2. cbn. by rewrite decide_True.
Qed.

Lemma save_api_key_facts (t : thread) (s : State) :
  ∃ sh lg,
    SettingsPanel.save_api_key t s
    = (inr tt,
       set_world
         (with_ui sh lg
            (set_openai_api_key (Some (api_key_entry (settings_panel s)))
               (set_environ
                  <[lit "OPENAI_API_KEY" := api_key_entry (settings_panel s)]>
                  (world s))))
         s)
    ∧ ∀ p, sh !! p
           = if decide (p ∈ panels (sizer s))
             then Some (bool_decide (p = home_id (home_panel s)))
             else shown (world s) !! p.
Proof.
  unfold SettingsPanel.save_api_key, SettingsPanel.return_to_home, in_world,
    zoom, bind, get, modify. cbn.
  match goal with
  | |- context [PanelsSwitcher.Show ?sz ?v ?t ?w] =>
      destruct (Show_frame sz v t w) as (sh & lg & Hrun);
      destruct (Show_spec sz v t w) as (w' & Hrun' & Hshown)
  end.
  rewrite Hrun in Hrun'. injection Hrun' as <-.
  exists sh, lg. rewrite Hrun. split; [done|]. exact Hshown.
Qed.

(** X23.  With a file selected and a non-empty key typed,
    [save_api_key] stores the key in the environment and in
    [openai.api_key] and shows the home panel, and a following
    [transcribe] starts exactly one thread. *)
Theorem save_key_then_transcribe
    (t : thread) (s : State) (path : str) :
  selected_file (home_panel s) = Some path → path ≠ [] →
  api_key_entry (settings_panel s) ≠ [] →
  let s1 := exec SettingsPanel.save_api_key t s in
  let s2 := exec HomePanel.transcribe t s1 in
  result SettingsPanel.save_api_key t s = inr tt
  ∧ environ (world s1) !! lit "OPENAI_API_KEY"
    = Some (api_key_entry (settings_panel s))
  ∧ openai_api_key (world s1) = Some (api_key_entry (settings_panel s))
  ∧ Forall (λ p, shown (world s1) !! p
                 = Some (bool_decide (p = home_id (home_panel s))))
      (panels (sizer s))
  ∧ result HomePanel.transcribe t s1 = inr tt
  ∧ threads (world s2) = S (threads (world s)).
Proof.
  intros Hsel Hpath Hkey. cbn zeta.
  destruct (save_api_key_facts t s) as (sh & lg & Hrun & Hsh).
  assert (Hs1 : exec SettingsPanel.save_api_key t s
                = set_world
                    (with_ui sh lg
                       (set_openai_api_key
                          (Some (api_key_entry (settings_panel s)))
                          (set_environ
                             <[lit "OPENAI_API_KEY"
                               := api_key_entry (settings_panel s)]>
                             (world s))))
                    s)
    by (unfold exec; by rewrite Hrun).
  rewrite Hs1. unfold result at 1. rewrite Hrun. cbn [fst].
  split; [done|]. split; [cbn; by rewrite lookup_insert_eq|]. split; [done|].
  split.
  { apply Forall_forall. intros p Hp. cbn. by rewrite Hsh, decide_True. }
  match goal with
  | |- context [exec HomePanel.transcribe t ?st] =>
      destruct (transcribe_start_facts t st path
                  (api_key_entry (settings_panel s)))
        as (Hres & Hthreads & _); [done|done| |done|]
  end.
  { cbn. by rewrite lookup_insert_eq. }
  split; [done|]. by rewrite Hthreads.
Qed.

(** ** What the handlers leave alone *)

Section preserves.
Context {S X : Type} (f : S → X).

Lemma preserves_ret {A} (a : A) : preserves f (ret a).
Proof. by intros t s. Qed.

Lemma preserves_raise {A} (e : exn) : preserves f (@raise S A e).
Proof. by intros t s. Qed.

Lemma preserves_lift_exn {A} (r : exn + A) : preserves f (lift_exn r).
Proof. by intros t s. Qed.

Lemma preserves_get : preserves f get.
Proof. by intros t s. Qed.

Lemma preserves_gets {A} (g : S → A) : preserves f (gets g).
Proof. by intros t s. Qed.

Lemma preserves_modify (g : S → S) :
  (∀ s, f (g s) = f s) → preserves f (modify g).
Proof. intros Hg t s. apply Hg. Qed.

Lemma preserves_bind {A B} (m : M S A) (k : A → M S B) :
  preserves f m → (∀ a, preserves f (k a)) → preserves f (bind m k).
Proof.
  intros Hm Hk t s. unfold bind. specialize (Hm t s).
  destruct (m t s) as [[e|a] s1]; [done|]. cbn in Hm. by rewrite Hk.
Qed.

Lemma preserves_run_as {A} (t' : thread) (m : M S A) :
  preserves f m → preserves f (run_as t' m).
Proof. intros Hm t s. apply Hm. Qed.
End preserves.

Lemma preserves_in_world {X A} (f : State → X) (m : M World A) :
  (∀ t s, f (set_world (m t (world s)).2 s) = f s) →
  preserves f (in_world m).
Proof.
  intros Hm t s. unfold in_world, zoom. specialize (Hm t s).
  destruct (m t (world s)) as [r w']. exact Hm.
Qed.

Lemma preserves_in_world_Show {X} (f : State → X)
    (sz : PanelsSwitcher) (v : oid) :
  (∀ sh lg s, f (set_world (with_ui sh lg (world s)) s) = f s) →
  preserves f (in_world (PanelsSwitcher.Show sz v)).
Proof.
  intros Hf. apply preserves_in_world. intros t s.
  destruct (Show_frame sz v t (world s)) as (sh & lg & Hrun).
  rewrite Hrun. apply Hf.
Qed.

Ltac keep_step :=
  first
    [ apply preserves_ret | apply preserves_raise | apply preserves_lift_exn
    | apply preserves_get | apply preserves_gets
    | apply preserves_run_as
    | apply preserves_bind; [|intros ?]
    | apply preserves_modify; intros; reflexivity
    | apply preserves_in_world_Show; intros; reflexivity
    | apply preserves_in_world; intros;
      unfold open_write, open_read, Thread_start, bind, get, modify, emit,
        raise, ret;
      cbn;
      repeat match goal with
             | |- context [match ?x with _ => _ end] => destruct x; cbn
             end;
      reflexivity
    | match goal with
      | |- preserves _ (match ?x with _ => _ end) => destruct x
      end ].

Ltac keep :=
  unfold HomePanel.select_audio_file, HomePanel.transcribe,
    HomePanel.show_settings, HomePanel.send_audio, HomePanel.thread_run,
    HomePanel.save_transcript, HomePanel.transcript_title,
    HomePanel.notify_error, HomePanel.clear_error,
    HomePanel.error_label_SetLabel, HomePanel.error_label_SetForegroundColour,
    HomePanel.file_display_SetLabel, HomePanel.self_Layout,
    SettingsPanel.save_api_key, SettingsPanel.return_to_home;
  repeat keep_step.

(** *** What each handler leaves alone *)

Lemma buttons_keep_files (b : button) (dlg : option (str * str)) :
  preserves (λ s, files (world s)) (on_button b dlg).
Proof. destruct b; unfold on_button; keep. Qed.

Lemma buttons_keep_key (b : button) (dlg : option (str * str)) :
  b ≠ save_settings_button →
  preserves (λ s, (environ (world s), openai_api_key (world s)))
    (on_button b dlg).
Proof. intros Hb. destruct b; try done; unfold on_button; keep. Qed.

Lemma job_keeps_key (n : nat) :
  preserves (λ s, (environ (world s), openai_api_key (world s)))
    (HomePanel.thread_run n).
Proof. keep. Qed.

Lemma buttons_keep_threads (b : button) (dlg : option (str * str)) :
  b ≠ transcribe_button →
  preserves (λ s, threads (world s)) (on_button b dlg).
Proof. intros Hb. destruct b; try done; unfold on_button; keep. Qed.

Lemma job_keeps_threads (n : nat) :
  preserves (λ s, threads (world s)) (HomePanel.thread_run n).
Proof. keep. Qed.

Lemma buttons_keep_selection (b : button) (dlg : option (str * str)) :
  (b = file_button → dlg = None) →
  preserves (λ s, selected_file (home_panel s)) (on_button b dlg).
Proof.
  intros Hb. destruct b; [rewrite Hb by done|..]; unfold on_button; keep.
Qed.

Lemma job_keeps_selection (n : nat) :
  preserves (λ s, selected_file (home_panel s)) (HomePanel.thread_run n).
Proof. keep. Qed.

Lemma buttons_keep_entries (b : button) (dlg : option (str * str)) :
  preserves (λ s, (title_entry (home_panel s), api_key_entry (settings_panel s)))
    (on_button b dlg).
Proof. destruct b; unfold on_button; keep. Qed.

Lemma job_keeps_entries (n : nat) :
  preserves (λ s, (title_entry (home_panel s), api_key_entry (settings_panel s)))
    (HomePanel.thread_run n).
Proof. keep. Qed.

(** X24.  What each event can change: the files only by a running job;
    the environment and [openai.api_key] only by the save button; the
    thread count only by the transcribe button; the selected file only by
    a confirmed file dialog; the title and the key entry only by
    typing. *)
Theorem who_changes_what (e : event) (s : State) :
  let s' := handle e s in
  ((∀ n, e ≠ JobRuns n) → files (world s') = files (world s))
  ∧ ((∀ dlg, e ≠ Click save_settings_button dlg) →
     environ (world s') = environ (world s)
     ∧ openai_api_key (world s') = openai_api_key (world s))
  ∧ ((∀ dlg, e ≠ Click transcribe_button dlg) →
     threads (world s') = threads (world s))
  ∧ ((∀ choice, e ≠ Click file_button (Some choice)) →
     selected_file (home_panel s') = selected_file (home_panel s))
  ∧ ((∀ v, e ≠ TypeTitle v) →
     title_entry (home_panel s') = title_entry (home_panel s))
  ∧ ((∀ v, e ≠ TypeApiKey v) →
     api_key_entry (settings_panel s') = api_key_entry (settings_panel s)).
Proof.
  cbn zeta. destruct e as [b dlg|v|v|n]; cbn [handle]; unfold exec.
  - repeat split.
    + intros _. apply (buttons_keep_files b dlg).
    + assert (b ≠ save_settings_button) as Hb by (intros ->; by eapply H).
      by injection (buttons_keep_key b dlg Hb MainThread s).
    + assert (b ≠ save_settings_button) as Hb by (intros ->; by eapply H).
      by injection (buttons_keep_key b dlg Hb MainThread s).
    + intros H. assert (b ≠ transcribe_button) as Hb by (intros ->; by eapply H).
      apply (buttons_keep_threads b dlg Hb).
    + intros H. apply (buttons_keep_selection b dlg).
      intros ->. destruct dlg as [choice|]; [by destruct (H choice)|done].
    + intros _. by injection (buttons_keep_entries b dlg MainThread s).
    + intros _. by injection (buttons_keep_entries b dlg MainThread s).
  - repeat split; try done. intros H. by destruct (H v).
  - repeat split; try done. intros H. by destruct (H v).
  - repeat split.
    + intros H. by destruct (H n).
    + by injection (job_keeps_key n MainThread s).
    + by injection (job_keeps_key n MainThread s).
    + intros _. apply (job_keeps_threads n).
    + intros _. apply (job_keeps_selection n).
    + intros _. by injection (job_keeps_entries n MainThread s).
    + intros _. by injection (job_keeps_entries n MainThread s).
Qed.

(** *** The application as a whole *)

Lemma app_inv_structure (s s' : State) :
  ui_structure s' = ui_structure s → app_inv s → app_inv s'.
Proof.
  unfold ui_structure, app_inv, one_panel_shown.
  intros [= Hshown Hsizer Hhome Hsettings]. by rewrite Hshown, Hsizer, Hhome, Hsettings.
Qed.

Lemma select_keeps_structure (dlg : option (str * str)) :
  preserves ui_structure (HomePanel.select_audio_file dlg).
Proof. keep. Qed.

Lemma transcribe_keeps_structure : preserves ui_structure HomePanel.transcribe.
Proof. keep. Qed.

Lemma job_keeps_structure (n : nat) :
  preserves ui_structure (HomePanel.thread_run n).
Proof. keep. Qed.

Lemma app_inv_shown (s s' : State) (v : oid) :
  app_inv s →
  sizer s' = sizer s → home_id (home_panel s') = home_id (home_panel s) →
  settings_id (settings_panel s') = settings_id (settings_panel s) →
  (v = home_id (home_panel s) ∨ v = settings_id (settings_panel s)) →
  (∀ p, p ∈ panels (sizer s) → shown (world s') !! p = Some (bool_decide (p = v))) →
  app_inv s'.
Proof.
  intros (Hpanels & Hne & _) Hsizer Hhome Hsettings Hv Hshown.
  unfold app_inv, one_panel_shown. rewrite Hsizer, Hhome, Hsettings.
  split; [done|]. split; [done|]. cbn zeta.
  rewrite !Hshown by (rewrite Hpanels, !elem_of_cons; tauto).
  destruct Hv as [-> | ->]; [left|right];
    repeat case_bool_decide; try done; congruence.
Qed.

Lemma handle_keeps_app_inv (e : event) (s : State) :
  app_inv s → app_inv (handle e s).
Proof.
  intros Hinv. destruct e as [b dlg|v|v|n]; cbn [handle].
  - destruct b; cbn [on_button].
    + eapply app_inv_structure; [apply select_keeps_structure|done].
    + eapply app_inv_structure; [apply transcribe_keeps_structure|done].
    + unfold exec. destruct (show_settings_run MainThread s)
        as (sh & lg & Hrun & Hsh). rewrite Hrun.
      eapply (app_inv_shown s _ (settings_id (settings_panel s)));
        [done..|by right|].
      intros p Hp. cbn. by rewrite Hsh, decide_True.
    + unfold exec. destruct (return_to_home_run MainThread s)
        as (sh & lg & Hrun & Hsh). rewrite Hrun.
      eapply (app_inv_shown s _ (home_id (home_panel s)));
        [done..|by left|].
      intros p Hp. cbn. by rewrite Hsh, decide_True.
    + unfold exec. destruct (save_api_key_facts MainThread s)
        as (sh & lg & Hrun & Hsh). rewrite Hrun.
      eapply (app_inv_shown s _ (home_id (home_panel s)));
        [done..|by left|].
      intros p Hp. cbn. by rewrite Hsh, decide_True.
  - by eapply app_inv_structure.
  - by eapply app_inv_structure.
  - eapply app_inv_structure; [apply job_keeps_structure|done].
Qed.

Lemma run_events_keeps_app_inv (es : list event) : ∀ s : State,
  app_inv s → app_inv (run_events es s).
Proof.
  induction es as [|e es IH]; intros s Hinv; [done|].
  apply IH. by apply handle_keeps_app_inv.
Qed.

Lemma app_init_run (self : oid) (home : HomePanel) (settings : SettingsPanel)
    (t : thread) (w : World) :
  ∃ w',
    TranscriptionApp.__init__ self home settings t w
    = inr {| frame := self; home_panel := home; settings_panel := settings;
             sizer := {| parent := self;
                         panels := [home_id home; settings_id settings] |};
             world := w' |}
    ∧ ∀ p, p ∈ [home_id home; settings_id settings] →
           shown w' !! p = Some (bool_decide (p = home_id home)).
Proof.
  unfold TranscriptionApp.__init__. unfold bind at 1.
  destruct (init_spec self (home_id home) [settings_id settings] t w)
    as (w1 & Hrun1 & _).
  rewrite Hrun1. unfold bind at 1. cbn [emit]. unfold bind at 1.
  match goal with
  | |- context [PanelsSwitcher.Show ?sz ?v ?t ?w] =>
      destruct (Show_spec sz v t w) as (w2 & Hrun2 & Hshown)
  end.
  rewrite Hrun2. cbn [ret]. exists w2. split; [done|].
  intros p Hp. rewrite Hshown. cbn [panels]. by rewrite decide_True.
Qed.

(** X25.  [TranscriptionApp.__init__] on two distinct panels cannot
    raise: the sizer holds the two panels, the home panel is shown and the
    settings panel is hidden. *)
Theorem app_starts_on_the_home_panel
    (self : oid) (home : HomePanel) (settings : SettingsPanel)
    (t : thread) (w : World) :
  home_id home ≠ settings_id settings →
  ∃ s0,
    TranscriptionApp.__init__ self home settings t w = inr s0
    ∧ home_panel s0 = home ∧ settings_panel s0 = settings
    ∧ panels (sizer s0) = [home_id home; settings_id settings]
    ∧ shown (world s0) !! home_id home = Some true
    ∧ shown (world s0) !! settings_id settings = Some false.
Proof.
  intros Hne. destruct (app_init_run self home settings t w)
    as (w' & Hrun & Hshown).
  eexists. split; [exact Hrun|]. cbn. repeat split.
  - rewrite Hshown by (rewrite !elem_of_cons; tauto).
    by case_bool_decide.
  - rewrite Hshown by (rewrite !elem_of_cons; tauto).
    case_bool_decide; [congruence|done].
Qed.

(** X26.  After start-up and any sequence of clicks, typing and finished
    jobs, exactly one of the two panels is shown, and the sizer still holds
    the two panels. *)
Theorem app_always_shows_one_panel
    (self : oid) (home : HomePanel) (settings : SettingsPanel)
    (t : thread) (w : World) (s0 : State) (es : list event) :
  home_id home ≠ settings_id settings →
  TranscriptionApp.__init__ self home settings t w = inr s0 →
  one_panel_shown (run_events es s0)
  ∧ panels (sizer (run_events es s0))
    = [home_id (home_panel (run_events es s0));
       settings_id (settings_panel (run_events es s0))].
Proof.
  intros Hne Hinit.
  destruct (app_init_run self home settings t w) as (w' & Hrun & Hshown).
  rewrite Hrun in Hinit. apply (inj inr) in Hinit. subst s0.
  match goal with
  | |- context [run_events es ?s] =>
      destruct (run_events_keeps_app_inv es s) as (Hpanels & _ & Hone)
  end; [|done].
  split; [done|]. split; [done|]. unfold one_panel_shown. cbn. left.
  rewrite !Hshown by (rewrite !elem_of_cons; tauto).
  repeat case_bool_decide; try done; congruence.
Qed.

(** *** The selected path *)



(** ** Further properties and instances *)

(** X2.  Every line of the output is empty, or is one single word of the
    input, or is at most [line_length + 1] characters long. *)
Theorem add_newlines_line_lengths (s : str) (line_length : Z) :
  Forall (λ line, line = [] ∨ line ∈ split s
                  ∨ (len line ≤ line_length + 1)%Z)
    (add_newlines_lines s line_length).
Proof. apply add_newlines_lines_bound. Qed.

Lemma add_newlines_leading_empty_line_witness :
  split (lit "abcdef gh") = [lit "abcdef"; lit "gh"]
  ∧ (3 < len (lit "abcdef"))%Z
  ∧ ∃ rest, add_newlines_lines (lit "abcdef gh") 3 = [] :: rest.
Proof.
  assert (H1 : split (lit "abcdef gh") = [lit "abcdef"; lit "gh"])
    by (vm_compute; reflexivity).
  assert (H2 : (3 < len (lit "abcdef"))%Z) by (vm_compute; reflexivity).
  split; [exact H1|split; [exact H2|]].
  destruct (add_newlines_leading_empty_line _ _ _ 3%Z H1 H2)
    as (rest & Hlines & _).
  by exists rest.
Defined.

Lemma add_newlines_no_empty_line_witness :
  split (lit "ab cd") = [lit "ab"; lit "cd"]
  ∧ (len (lit "ab") ≤ 5)%Z
  ∧ Forall (λ line, line ≠ []) (add_newlines_lines (lit "ab cd") 5).
Proof.
  assert (H1 : split (lit "ab cd") = [lit "ab"; lit "cd"])
    by (vm_compute; reflexivity).
  assert (H2 : (len (lit "ab") ≤ 5)%Z) by (vm_compute; discriminate).
  split; [exact H1|split; [exact H2|]].
  exact (proj2 (add_newlines_no_empty_line _ _ _ 5%Z H1 H2)).
Defined.

Lemma add_newlines_one_word_per_line_witness :
  split (lit "ab cd") ≠ []
  ∧ Forall (λ w, (0 < len w)%Z) (split (lit "ab cd"))
  ∧ add_newlines_lines (lit "ab cd") 0 = [] :: split (lit "ab cd").
Proof.
  assert (H1 : split (lit "ab cd") ≠ []) by (vm_compute; discriminate).
  assert (H2 : Forall (λ w, (0 < len w)%Z) (split (lit "ab cd"))).
  { change (split (lit "ab cd")) with [lit "ab"; lit "cd"].
    repeat constructor. }
  split; [exact H1|split; [exact H2|]].
  exact (proj1 (add_newlines_one_word_per_line _ 0%Z H1 H2)).
Defined.

Lemma add_newlines_single_line_witness :
  (len (join (lit " ") (split (lit "  rate   limited "))) ≤ 50)%Z
  ∧ add_newlines (lit "  rate   limited ") 50 = lit "rate limited".
Proof.
  assert (H : (len (join (lit " ") (split (lit "  rate   limited "))) ≤ 50)%Z)
    by (vm_compute; discriminate).
  split; [exact H|].
  exact (add_newlines_single_line _ 50%Z H).
Defined.

Lemma add_panel_then_Show_witness :
  (6%positive ∈ panels sample_sizer ++ [6%positive])
  ∧ Forall (λ p, shown (exec (PanelsSwitcher.Show
                                {| parent := 1;
                                   panels := panels sample_sizer ++ [6%positive] |}
                                6)
                          MainThread
                          (exec (PanelsSwitcher.add_panel sample_sizer 6)
                             MainThread sample_world)) !! p
                 = Some (bool_decide (p = 6%positive)))
      (panels sample_sizer ++ [6%positive]).
Proof.
  assert (H : 6%positive ∈ panels sample_sizer ++ [6%positive])
    by (apply elem_of_app; right; by left).
  split; [exact H|].
  exact (proj2 (proj2 (proj2
           (add_panel_then_Show sample_sizer 6 6 MainThread sample_world H)))).
Defined.


Lemma save_transcript_refused_is_silent_witness :
  result HomePanel.transcript_title MainThread (sample_titled (lit "what?"))
  = inr (lit "what?")
  ∧ creatable (world (sample_titled (lit "what?"))) (lit "what?.txt") = false
  ∧ exec (HomePanel.save_transcript (lit "hello world")) MainThread
      (sample_titled (lit "what?"))
    = sample_titled (lit "what?").
Proof.
  assert (H1 : result HomePanel.transcript_title MainThread
                 (sample_titled (lit "what?")) = inr (lit "what?"))
    by (vm_compute; reflexivity).
  assert (H2 : creatable (world (sample_titled (lit "what?")))
                 (lit "what?" ++ lit ".txt") = false)
    by (vm_compute; reflexivity).
  split; [exact H1|split; [exact H2|]].
  exact (proj2 (save_transcript_refused_is_silent MainThread
                  (sample_titled (lit "what?")) (lit "hello world") _ H1 H2)).
Defined.


Lemma send_audio_unreadable_file_is_silent_witness :
  (selected_file (home_panel sample_state)
     ≫= λ p, files (world sample_state) !! p) = None
  ∧ result HomePanel.send_audio MainThread sample_state = inl TypeError
  ∧ exec HomePanel.send_audio MainThread sample_state = sample_state.
Proof.
  assert (H : (selected_file (home_panel sample_state)
                 ≫= λ p, files (world sample_state) !! p) = None)
    by reflexivity.
  split; [exact H|].
  exact (send_audio_unreadable_file_is_silent MainThread sample_state H).
Defined.

Lemma send_audio_failure_shows_red_when_save_refused_witness :
  creatable (world (sample_titled (lit "what?"))) (lit "what?.txt") = false
  ∧ shows (exec HomePanel.send_audio MainThread (sample_titled (lit "what?")))
      red (lit "OPENAI error: rate limited").
Proof.
  assert (H1 : selected_file (home_panel (sample_titled (lit "what?")))
               = Some (lit "talk.mp3")) by reflexivity.
  assert (H2 : files (world (sample_titled (lit "what?"))) !! lit "talk.mp3"
               = Some (lit "RIFF")) by (vm_compute; reflexivity).
  assert (H3 : remote (world (sample_titled (lit "what?"))) (lit "RIFF")
               = inl (lit "rate limited")) by reflexivity.
  assert (H4 : result HomePanel.transcript_title MainThread
                 (sample_titled (lit "what?")) = inr (lit "what?"))
    by (vm_compute; reflexivity).
  assert (H5 : creatable (world (sample_titled (lit "what?")))
                 (lit "what?" ++ lit ".txt") = false)
    by (vm_compute; reflexivity).
  split; [exact H5|].
  exact (proj1 (proj2 (send_audio_failure_shows_red_when_save_refused
                         MainThread (sample_titled (lit "what?"))
                         _ _ _ _ H1 H2 H3 H4 H5))).
Defined.

Lemma transcribe_starts_a_thread_per_click_witness :
  selected_file (home_panel sample_ready) = Some (lit "talk.mp3")
  ∧ environ (world sample_ready) !! lit "OPENAI_API_KEY" = Some (lit "sk-test")
  ∧ threads (world (Nat.iter 2 (exec HomePanel.transcribe MainThread)
                      sample_ready))
    = threads (world sample_ready) + 2.
Proof.
  assert (H1 : selected_file (home_panel sample_ready) = Some (lit "talk.mp3"))
    by reflexivity.
  assert (H2 : lit "talk.mp3" ≠ []) by discriminate.
  assert (H3 : environ (world sample_ready) !! lit "OPENAI_API_KEY"
               = Some (lit "sk-test")) by (vm_compute; reflexivity).
  assert (H4 : lit "sk-test" ≠ []) by discriminate.
  split; [exact H1|split; [exact H3|]].
  exact (proj1 (transcribe_starts_a_thread_per_click 2 MainThread sample_ready
                  _ _ H1 H2 H3 H4)).
Defined.

Lemma save_key_then_transcribe_witness :
  selected_file (home_panel sample_key_typed) = Some (lit "talk.mp3")
  ∧ api_key_entry (settings_panel sample_key_typed) ≠ []
  ∧ threads (world (exec HomePanel.transcribe MainThread
                      (exec SettingsPanel.save_api_key MainThread
                         sample_key_typed)))
    = S (threads (world sample_key_typed)).
Proof.
  assert (H1 : selected_file (home_panel sample_key_typed)
               = Some (lit "talk.mp3")) by reflexivity.
  assert (H2 : lit "talk.mp3" ≠ []) by discriminate.
  assert (H3 : api_key_entry (settings_panel sample_key_typed) ≠ [])
    by discriminate.
  split; [exact H1|split; [exact H3|]].
  exact (proj2 (proj2 (proj2 (proj2 (proj2
           (save_key_then_transcribe MainThread sample_key_typed _
              H1 H2 H3)))))).
Defined.

Lemma app_starts_on_the_home_panel_witness :
  (2%positive ≠ 3%positive)
  ∧ ∃ s0,
      TranscriptionApp.__init__ 1 (HomePanel.__init__ 2 4 5)
        {| settings_id := 3; api_key_entry := lit "" |} MainThread sample_world
      = inr s0
      ∧ shown (world s0) !! 2%positive = Some true
      ∧ shown (world s0) !! 3%positive = Some false.
Proof.
  assert (H : home_id (HomePanel.__init__ 2 4 5)
              ≠ settings_id {| settings_id := 3; api_key_entry := lit "" |})
    by discriminate.
  split; [exact H|].
  destruct (app_starts_on_the_home_panel 1 (HomePanel.__init__ 2 4 5)
              {| settings_id := 3; api_key_entry := lit "" |}
              MainThread sample_world H)
    as (s0 & Hinit & _ & _ & _ & Hhome & Hsettings).
  exists s0. split; [exact Hinit|]. split; [exact Hhome|exact Hsettings].
Defined.

Lemma app_always_shows_one_panel_witness :
  TranscriptionApp.__init__ 1 (HomePanel.__init__ 2 4 5)
    {| settings_id := 3; api_key_entry := lit "" |} MainThread sample_world
  = inr sample_started
  ∧ one_panel_shown (run_events sample_session sample_started).
Proof.
  assert (H1 : home_id (HomePanel.__init__ 2 4 5)
               ≠ settings_id {| settings_id := 3; api_key_entry := lit "" |})
    by discriminate.
  assert (H2 : TranscriptionApp.__init__ 1 (HomePanel.__init__ 2 4 5)
                 {| settings_id := 3; api_key_entry := lit "" |}
                 MainThread sample_world = inr sample_started)
    by (vm_compute; reflexivity).
  split; [exact H2|].
  exact (proj1 (app_always_shows_one_panel 1 (HomePanel.__init__ 2 4 5)
                  {| settings_id := 3; api_key_entry := lit "" |}
                  MainThread sample_world sample_started sample_session
                  H1 H2)).
Defined.



Lemma digit_is_digit (n : N) : is_digit (digit n) = true.
Proof.
  unfold is_digit, digit. pose proof (N.mod_lt n 10) as Hlt.
  apply andb_true_iff. rewrite !N.leb_le.
  generalize dependent (n mod 10)%N. intros r Hlt. lia.
Qed.

(** X28.  With an empty title and a clock reading in range, the title of
    the transcript is "transcript_" followed by 19 characters: the year
    on four ASCII digits and month, day, hour, minute and second on two
    ASCII digits each, separated by underscores, each group reading back
    as the field. *)
Theorem timestamp_title_format (t : thread) (s : State) :
  title_entry (home_panel s) = lit "" →
  datetime_ok (now (world s)) = true →
  let d := now (world s) in
  ∃ ts,
    result HomePanel.transcript_title t s = inr (lit "transcript_" ++ ts)
    ∧ length ts = 19%nat
    ∧ decimal (take 4 ts) = year d
    ∧ decimal (take 2 (drop 5 ts)) = month d
    ∧ decimal (take 2 (drop 8 ts)) = day d
    ∧ decimal (take 2 (drop 11 ts)) = hour d
    ∧ decimal (take 2 (drop 14 ts)) = minute d
    ∧ decimal (take 2 (drop 17 ts)) = second d
    ∧ Forall (λ i, ts !! i = Some 0x5F%N) [4; 7; 10; 13; 16]%nat
    ∧ forallb is_digit
        (take 4 ts ++ take 2 (drop 5 ts) ++ take 2 (drop 8 ts)
         ++ take 2 (drop 11 ts) ++ take 2 (drop 14 ts) ++ take 2 (drop 17 ts))
      = true.
Proof.
  intros Htitle Hd. cbn zeta. exists (strftime (now (world s))).
  unfold result. rewrite transcript_title_run, Htitle. cbn [fst].
  destruct (strftime_fields _ Hd) as (Hlen & Hy & Hmo & Hda & Hh & Hmi & Hs).
  split; [done|]. split; [done|].
  do 6 (split; [done|]). split; [by repeat constructor|].
  unfold strftime, pad4, pad2. change (lit "_") with [0x5F%N].
  cbn [take drop app forallb]. by rewrite !digit_is_digit.
Qed.

Lemma timestamp_title_format_witness :
  title_entry (home_panel sample_ready) = lit ""
  ∧ datetime_ok (now (world sample_ready)) = true
  ∧ ∃ ts,
      result HomePanel.transcript_title MainThread sample_ready
      = inr (lit "transcript_" ++ ts)
      ∧ length ts = 19%nat.
Proof.
  assert (H1 : title_entry (home_panel sample_ready) = lit "") by reflexivity.
  assert (H2 : datetime_ok (now (world sample_ready)) = true)
    by (vm_compute; reflexivity).
  split; [exact H1|split; [exact H2|]].
  destruct (timestamp_title_format MainThread sample_ready H1 H2)
    as (ts & Hres & Hlen & _).
  exists ts. split; [exact Hres|exact Hlen].
Defined.
